(** * Token-based session authentication of the employee-management app

    A shallow embedding of
    - [backend/src/resolvers/userResolvers.js] ([register], [login],
      [changePassword]),
    - [backend/src/middleware/auth.js] ([verifyToken]),
    - [backend/src/index.js] (the GraphQL [context] function),
    - the client-side [AuthProvider] ([login], [logout], the mount effect),
    followed by the properties the specification states about them.

    Async functions become computations in a state-and-exception monad over
    a [World] (the user collection, the reachability of the store, the
    ObjectId generator, the clock and a trace of the calls made to the
    store and to the JWT library).  A rejected promise and a synchronous
    [throw] are both [Throw]; effects made before a throw are kept.

    JS strings are modelled by [string]; [length] is the number of units. *)

From Stdlib Require Import String Ascii List ZArith NArith Bool Lia.
Import ListNotations.
Local Open Scope string_scope.

(** ** Values *)

(** Modelled from the spec: the [Role] enum of [models/User.js], which is not
    among the sources; per the spec a role is admin or employee. *)
Inductive Role : Type := ADMIN | EMPLOYEE.

Definition ObjectId := N.

(** A document of the [users] collection.  [password] holds the digest once
    the document has been saved. *)
Record UserDoc : Type := mkUserDoc {
  _id : ObjectId;
  name : string;
  email : string;
  password : string;
  role : Role
}.

(** The object [verifyToken] returns and the resolvers receive as
    [context.user]; also the [user] claim of a token. *)
Record AuthUser : Type := mkAuthUser {
  au_id : ObjectId;
  au_name : string;
  au_email : string;
  au_role : Role
}.

(** The payload [jwt.verify] hands back.  [claim_user = None] is a payload
    without a [user] member, on which [decoded.user.id] is a [TypeError]. *)
Record JwtPayload : Type := mkJwtPayload {
  claim_user : option AuthUser;
  iat : Z;
  exp : Z
}.

(** Everything that can be thrown: the classes of [utils/errors.js], the
    errors of Mongoose and of [jsonwebtoken], a [TypeError], and the
    [InvalidTokenError] of the client's [jwt-decode]. *)
Inductive Error : Type :=
| AuthenticationError (message : string)
| ForbiddenError (message : string)
| UserInputError (message : string)
| MongooseError (message : string)
| ValidationError (message : string)
| JsonWebTokenError (message : string)
| TokenExpiredError (message : string)
| TypeError (message : string)
| InvalidTokenError (message : string).

Inductive Outcome (A : Type) : Type :=
| Return (value : A)
| Throw (error : Error).
Arguments Return {A} value.
Arguments Throw {A} error.

(** ** The world and the monad *)

Inductive Event : Type :=
| EvFindOne (e : string)
| EvFindById (i : ObjectId)
| EvInsert (i : ObjectId)
| EvUpdate (i : ObjectId)
| EvJwtSign (subject : ObjectId)
| EvJwtVerify (token : string).

Record World : Type := mkWorld {
  users : list UserDoc;      (* the collection, in insertion order *)
  db_up : bool;              (* whether the store answers *)
  next_oid : ObjectId;       (* the driver's ObjectId generator *)
  clock : Z;                 (* seconds since the epoch *)
  trace : list Event         (* calls made so far, oldest first *)
}.

Definition M (A : Type) : Type := World -> Outcome A * World.

Definition ret {A} (a : A) : M A := fun w => (Return a, w).

Definition throw {A} (e : Error) : M A := fun w => (Throw e, w).

Definition bind {A B} (c : M A) (k : A -> M B) : M B :=
  fun w =>
    match c w with
    | (Return a, w') => k a w'
    | (Throw e, w') => (Throw e, w')
    end.

(** [try { c } catch (error) { h error }] *)
Definition try_catch {A} (c : M A) (h : Error -> M A) : M A :=
  fun w =>
    match c w with
    | (Return a, w') => (Return a, w')
    | (Throw e, w') => h e w'
    end.

Declare Scope js_scope.
Delimit Scope js_scope with js.
Notation "x <- c ;; k" := (bind c (fun x => k))
  (at level 61, c at next level, right associativity) : js_scope.
Notation "c ;;; k" := (bind c (fun _ => k))
  (at level 61, right associativity) : js_scope.
Local Open Scope js_scope.

Definition log (ev : Event) (w : World) : World :=
  {| users := users w; db_up := db_up w; next_oid := next_oid w;
     clock := clock w; trace := trace w ++ [ev] |}.

Definition set_users (us : list UserDoc) (w : World) : World :=
  {| users := us; db_up := db_up w; next_oid := next_oid w;
     clock := clock w; trace := trace w |}.

(** ** The [User] model over the store *)

Definition has_id (i : ObjectId) (u : UserDoc) : bool := N.eqb (_id u) i.
Definition has_email (e : string) (u : UserDoc) : bool := String.eqb (email u) e.

Definition store_down : Error :=
  MongooseError "Operation `users` buffering timed out".

(** [User.findOne({ email })] *)
Definition User_findOne (e : string) : M (option UserDoc) :=
  fun w =>
    let w' := log (EvFindOne e) w in
    if db_up w then (Return (find (has_email e) (users w)), w')
    else (Throw store_down, w').

(** [User.findById(id)] *)
Definition User_findById (i : ObjectId) : M (option UserDoc) :=
  fun w =>
    let w' := log (EvFindById i) w in
    if db_up w then (Return (find (has_id i) (users w)), w')
    else (Throw store_down, w').

(** A Mongoose document in the hands of a resolver. *)
Record Document : Type := mkDocument {
  fields : UserDoc;
  isNew : bool;
  passwordModified : bool
}.

(** [new User({ name, email, password, role })]: the driver assigns [_id]. *)
Definition new_User (n e p : string) (r : Role) : M Document :=
  fun w =>
    (Return {| fields := mkUserDoc (next_oid w) n e p r;
               isNew := true; passwordModified := true |},
     {| users := users w; db_up := db_up w; next_oid := N.succ (next_oid w);
        clock := clock w; trace := trace w |}).

(** [foundUser.password = newPassword] *)
Definition set_password (d : Document) (p : string) : Document :=
  {| fields := mkUserDoc (_id (fields d)) (name (fields d)) (email (fields d))
                         p (role (fields d));
     isNew := isNew d; passwordModified := true |}.

Fixpoint replace_doc (u : UserDoc) (us : list UserDoc) : list UserDoc :=
  match us with
  | [] => []
  | v :: vs => if has_id (_id u) v then u :: vs else v :: replace_doc u vs
  end.

(** The collaborators the resolvers and the verifier are written against:
    the process environment, [jsonwebtoken], [bcryptjs] and the validators
    of the [User] schema. *)
Class Collaborators : Type := {
  env_JWT_SECRET : option string;
  (* [jwt.sign({ user }, secret, { expiresIn })] at time [now] *)
  jwt_sign : AuthUser -> string -> Z -> Z -> string;
  (* [jwt.verify(token, secret)] at time [now] *)
  jwt_verify : string -> string -> Z -> Outcome JwtPayload;
  bcrypt_hash : string -> string;
  bcrypt_compare : string -> string -> bool;
  schema_validate : UserDoc -> bool
}.

(** What the verifier may rely on from [jsonwebtoken]: a token signed with a
    secret verifies under that secret until it expires, and yields the claims
    that were signed. *)
Class JwtLaws (C : Collaborators) : Prop := {
  jwt_verify_sign :
    forall (u : AuthUser) (secret : string) (issued ttl now : Z),
      (now < issued + ttl)%Z ->
      jwt_verify (jwt_sign u secret issued ttl) secret now
      = Return {| claim_user := Some u; iat := issued; exp := (issued + ttl)%Z |}
}.

Section Backend.
Context {C : Collaborators}.

(** [process.env.JWT_SECRET || 'your-secret-key'] (the same line in
    [userResolvers.js] and in [auth.js]). *)
Definition JWT_SECRET : string :=
  match env_JWT_SECRET with
  | Some s => if String.eqb s EmptyString then "your-secret-key" else s
  | None => "your-secret-key"
  end.

(** Modelled from the spec: [models/User.js] is not among the sources.  Per
    the spec a save persists the user with a hashed password, and the store
    enforces the uniqueness of [_id] and of [email] on insert. *)
Definition save (d : Document) : M Document :=
  fun w =>
    let u := fields d in
    if negb (db_up w) then (Throw store_down, w)
    else if negb (schema_validate u) then
      (Throw (ValidationError "User validation failed"), w)
    else
      let stored :=
        if passwordModified d
        then mkUserDoc (_id u) (name u) (email u) (bcrypt_hash (password u)) (role u)
        else u in
      let d' := {| fields := stored; isNew := false; passwordModified := false |} in
      if isNew d then
        if existsb (fun v => has_id (_id u) v || has_email (email u) v) (users w)
        then (Throw (MongooseError "E11000 duplicate key error"),
              log (EvInsert (_id u)) w)
        else (Return d', log (EvInsert (_id u)) (set_users (users w ++ [stored]) w))
      else
        (Return d', log (EvUpdate (_id u)) (set_users (replace_doc stored (users w)) w)).

(** Modelled from the spec: [comparePassword] of [models/User.js], the
    password-hashing collaborator's [verify(plaintext, digest)]. *)
Definition comparePassword (u : UserDoc) (candidate : string) : M bool :=
  ret (bcrypt_compare candidate (password u)).

(** [jwt.sign(payload, secret, { expiresIn: '7d' })] *)
Definition seven_days : Z := 604800.

Definition jwt_sign_now (u : AuthUser) (secret : string) : M string :=
  fun w => (Return (jwt_sign u secret (clock w) seven_days),
            log (EvJwtSign (au_id u)) w).

Definition jwt_verify_now (token secret : string) : M JwtPayload :=
  fun w => (jwt_verify token secret (clock w), log (EvJwtVerify token) w).

(** *** [userResolvers.js] *)

Record RegisterInput : Type := mkRegisterInput {
  in_name : string;
  in_email : string;
  in_password : string;
  in_role : option Role
}.

Record AuthPayload : Type := mkAuthPayload { token : string }.

Record RequestContext : Type := mkContext { user : option AuthUser }.

Record Result : Type := mkResult { success : bool; message : string }.

(** [role || Role.EMPLOYEE] *)
Definition role_or_default (r : option Role) : Role :=
  match r with
  | Some r => r
  | None => EMPLOYEE
  end.

(** The [jwt.sign] call [register] and [login] share. *)
Definition token_for (u : UserDoc) : M AuthPayload :=
  t <- jwt_sign_now (mkAuthUser (_id u) (name u) (email u) (role u)) JWT_SECRET ;;
  ret {| token := t |}.

Definition register (input : RegisterInput) : M AuthPayload :=
  existingUser <- User_findOne (in_email input) ;;
  match existingUser with
  | Some _ => throw (UserInputError "Email already exists")
  | None =>
      user <- new_User (in_name input) (in_email input) (in_password input)
                       (role_or_default (in_role input)) ;;
      user <- save user ;;
      token_for (fields user)
  end.

Definition login (email password : string) : M AuthPayload :=
  user <- User_findOne email ;;
  match user with
  | None => throw (UserInputError "Invalid email or password")
  | Some user =>
      isMatch <- comparePassword user password ;;
      if negb isMatch then throw (UserInputError "Invalid email or password")
      else token_for user
  end.

Definition changePassword (currentPassword newPassword : string) (ctx : RequestContext)
  : M Result :=
  match user ctx with
  | None => throw (AuthenticationError "Not authenticated")
  | Some user =>
      foundUser <- User_findById (au_id user) ;;
      match foundUser with
      | None => throw (UserInputError "User not found")
      | Some foundUser =>
          isMatch <- comparePassword foundUser currentPassword ;;
          if negb isMatch then
            ret {| success := false; message := "Current password is incorrect" |}
          else if (String.length newPassword <? 8)%nat then
            ret {| success := false;
                   message := "New password must be at least 8 characters" |}
          else
            save (set_password (mkDocument foundUser false false) newPassword) ;;;
            ret {| success := true; message := "Password changed successfully" |}
      end
  end.

(** *** [middleware/auth.js] *)

Definition verifyToken (token : string) : M (option AuthUser) :=
  try_catch
    (decoded <- jwt_verify_now token JWT_SECRET ;;
     match claim_user decoded with
     | None => throw (TypeError "Cannot read properties of undefined (reading 'id')")
     | Some claims =>
         user <- User_findById (au_id claims) ;;
         match user with
         | None => ret None
         | Some user =>
             ret (Some {| au_id := _id user; au_name := name user;
                          au_email := email user; au_role := role user |})
         end
     end)
    (fun _ => ret None).

(** *** [index.js]: the [context] function of [expressMiddleware] *)

(** [s.split(' ')] *)
Fixpoint split_space (s : string) : list string :=
  match s with
  | EmptyString => [EmptyString]
  | String c t =>
      if Ascii.eqb c " " then EmptyString :: split_space t
      else match split_space t with
           | h :: r => String c h :: r
           | [] => [String c EmptyString]
           end
  end.

(** [x || ''] on a string or [undefined] *)
Definition or_empty (x : option string) : string :=
  match x with
  | Some s => s
  | None => EmptyString
  end.

Definition truthy (s : string) : bool := negb (String.eqb s EmptyString).

(** [authorization] is [req.headers.authorization], [None] when the header
    is absent. *)
Definition context (authorization : option string) : M RequestContext :=
  let token :=
    or_empty (match authorization with
              | None => None
              | Some h => nth_error (split_space h) 1
              end) in
  user <- (if truthy token then verifyToken token else ret None) ;;
  ret {| user := user |}.

End Backend.

(** ** The other resolvers of [userResolvers.js] *)

(** What [createdAt?.toISOString()] and [updatedAt?.toISOString()] give on a
    document fetched in a world.  The timestamps are kept by the schema of
    [models/User.js], which is not among the sources; they are taken as
    given. *)
Class Timestamps : Type := {
  createdAt_ISO : World -> UserDoc -> option string;
  updatedAt_ISO : World -> UserDoc -> option string
}.

(** What [bcryptjs] guarantees: a password matches its own digest. *)
Class BcryptLaws (C : Collaborators) : Prop := {
  compare_hash : forall p : string, bcrypt_compare p (bcrypt_hash p) = true
}.

(** The object [me] and [updateProfile] return. *)
Record UserView : Type := mkUserView {
  v_id : ObjectId;
  v_name : string;
  v_email : string;
  v_role : Role;
  v_createdAt : option string;
  v_updatedAt : option string
}.

Record UpdateProfileInput : Type := mkUpdateProfileInput {
  up_name : option string;
  up_email : option string
}.

(** [x || undefined] on an optional string *)
Definition or_undefined (x : option string) : option string :=
  match x with
  | Some s => if truthy s then Some s else None
  | None => None
  end.

(** The filter [{ email, _id: { $ne: id } }] *)
Definition has_email_not_id (e : string) (i : ObjectId) (u : UserDoc) : bool :=
  has_email e u && negb (has_id i u).

(** [User.findOne({ email, _id: { $ne: id } })] *)
Definition User_findOne_other (e : string) (i : ObjectId) : M (option UserDoc) :=
  fun w =>
    let w' := log (EvFindOne e) w in
    if db_up w then (Return (find (has_email_not_id e i) (users w)), w')
    else (Throw store_down, w').

(** The document after [$set]ting the keys of the update that are defined. *)
Definition apply_update (n e : option string) (d : UserDoc) : UserDoc :=
  mkUserDoc (_id d)
            (match n with Some x => x | None => name d end)
            (match e with Some x => x | None => email d end)
            (password d) (role d).

(** [User.findByIdAndUpdate(id, { name, email }, { new: true })]: keys whose
    value is [undefined] are dropped from the update, no save hook runs, and
    the document as updated is returned, [null] when no document has the id. *)
Definition User_findByIdAndUpdate (i : ObjectId) (n e : option string)
  : M (option UserDoc) :=
  fun w =>
    let w' := log (EvUpdate i) w in
    if db_up w then
      match find (has_id i) (users w) with
      | None => (Return None, w')
      | Some d =>
          let d' := apply_update n e d in
          (Return (Some d'), set_users (replace_doc d' (users w)) w')
      end
    else (Throw store_down, w').

Section Profile.
Context {C : Collaborators} {T : Timestamps}.

(** The object literal both resolvers end with. *)
Definition view_of (u : UserDoc) : M UserView :=
  fun w =>
    (Return {| v_id := _id u; v_name := name u; v_email := email u;
               v_role := role u;
               v_createdAt := createdAt_ISO w u;
               v_updatedAt := updatedAt_ISO w u |}, w).

Definition me (ctx : RequestContext) : M UserView :=
  match user ctx with
  | None => throw (AuthenticationError "Not authenticated")
  | Some user =>
      foundUser <- User_findById (au_id user) ;;
      match foundUser with
      | None => throw (AuthenticationError "User not found")
      | Some foundUser => view_of foundUser
      end
  end.

Definition updateProfile (input : UpdateProfileInput) (ctx : RequestContext)
  : M UserView :=
  match user ctx with
  | None => throw (AuthenticationError "Not authenticated")
  | Some user =>
      (match up_email input with
       | Some email =>
           if truthy email then
             existingUser <- User_findOne_other email (au_id user) ;;
             match existingUser with
             | Some _ => throw (UserInputError "Email already exists")
             | None => ret tt
             end
           else ret tt
       | None => ret tt
       end) ;;;
      updatedUser <- User_findByIdAndUpdate (au_id user)
                       (or_undefined (up_name input))
                       (or_undefined (up_email input)) ;;
      match updatedUser with
      | None => throw (UserInputError "User not found")
      | Some updatedUser => view_of updatedUser
      end
  end.

End Profile.

(** A request as the server handles it: the [context] function, then the
    resolver with the context it built. *)
Definition serve {C : Collaborators} {A : Type} (authorization : option string)
  (resolver : RequestContext -> M A) : M A :=
  ctx <- context authorization ;;
  resolver ctx.

(** ** The client-side session context ([AuthProvider]) *)

Module Client.

(** [interface User] of the client. *)
Record User : Type := mkUser {
  id : string;
  email : string;
  name : string;
  role : Role
}.

(** What the provider reads off a decoded token: its [user] member.  The
    type argument [{ user: User }] is not checked when the program runs:
    [user] is [None] when the payload has no [user] member or a falsy one
    ([decoded.user] is [undefined], [null] or another falsy value), and is
    read through the interface otherwise.  In the session below, [st_user = None] is likewise
    a cell that holds no user. *)
Record Decoded : Type := mkDecoded { user : option User }.

(** The provider's two state cells, [localStorage] under the key ['token']
    and what went to [console.error]. *)
Record Session : Type := mkSession {
  st_user : option User;
  st_loading : bool;
  storage_token : option string;
  console : list string
}.

Definition setUser (u : option User) (s : Session) : Session :=
  {| st_user := u; st_loading := st_loading s;
     storage_token := storage_token s; console := console s |}.

Definition setLoading (b : bool) (s : Session) : Session :=
  {| st_user := st_user s; st_loading := b;
     storage_token := storage_token s; console := console s |}.

Definition setItem (t : string) (s : Session) : Session :=
  {| st_user := st_user s; st_loading := st_loading s;
     storage_token := Some t; console := console s |}.

Definition removeItem (s : Session) : Session :=
  {| st_user := st_user s; st_loading := st_loading s;
     storage_token := None; console := console s |}.

Definition console_error (m : string) (s : Session) : Session :=
  {| st_user := st_user s; st_loading := st_loading s;
     storage_token := storage_token s; console := console s ++ [m] |}.

(** [useState(null)], [useState(true)] over a given storage. *)
Definition initial (stored : option string) : Session :=
  {| st_user := None; st_loading := true; storage_token := stored; console := [] |}.

(** [isAuthenticated: !!user] *)
Definition isAuthenticated (s : Session) : bool :=
  match st_user s with
  | Some _ => true
  | None => false
  end.

Section Provider.
(** [jwtDecode<{ user: User }>(token)] of [jwt-decode] with the read of
    [decoded.user] that follows it inside the same [try]: a [Throw] is the
    [InvalidTokenError] of a token that cannot be decoded, or the [TypeError]
    of reading [user] off a [null] payload; the [catch] treats both alike. *)
Variable jwtDecode : string -> Outcome Decoded.

(** The effect run on mount. *)
Definition mount (s : Session) : Session :=
  let s :=
    match storage_token s with
    | Some token =>
        if truthy token then
          match jwtDecode token with
          | Return decoded => setUser (user decoded) s
          | Throw _ => removeItem (console_error "Invalid token:" s)
          end
        else s
    | None => s
    end in
  setLoading false s.

Definition login (token : string) (s : Session) : Session :=
  let s := setItem token s in
  match jwtDecode token with
  | Return decoded => setUser (user decoded) s
  | Throw _ => console_error "Invalid token:" s
  end.

Definition logout (s : Session) : Session :=
  setUser None (removeItem s).

End Provider.

End Client.

(** ** The add-employee form ([AddEmployeeModal]) *)

Module EmployeeForm.

(** White space as [trim] and the regex classes [\s], [\S] see it, among the
    units a [string] holds: tab to carriage return, space, no-break space. *)
Definition is_space (c : ascii) : bool :=
  let n := nat_of_ascii c in
  ((9 <=? n) && (n <=? 13) || (n =? 32) || (n =? 160))%nat.

Fixpoint trimStart (s : string) : string :=
  match s with
  | EmptyString => EmptyString
  | String c t => if is_space c then trimStart t else s
  end.

Fixpoint trimEnd (s : string) : string :=
  match s with
  | EmptyString => EmptyString
  | String c t =>
      match trimEnd t with
      | EmptyString => if is_space c then EmptyString else String c EmptyString
      | r => String c r
      end
  end.

(** [s.trim()] *)
Definition trim (s : string) : string := trimEnd (trimStart s).

(** [!s] on a string *)
Definition falsy (s : string) : bool := String.eqb s EmptyString.

(** Regular expressions that are a sequence of character classes, each taken
    once or one or more times: enough for [/\S+@\S+\.\S+/]. *)
Inductive Quantifier : Type := Once | OneOrMore.

Record Atom : Type := mkAtom { class_of : ascii -> bool; quantifier : Quantifier }.

(** A match of the atoms starting at the head of [s]. *)
Fixpoint match_here (s : string) (atoms : list Atom) {struct s} : bool :=
  match atoms with
  | [] => true
  | a :: rest =>
      match s with
      | EmptyString => false
      | String x t =>
          class_of a x
          && match quantifier a with
             | Once => match_here t rest
             | OneOrMore => match_here t (a :: rest) || match_here t rest
             end
      end
  end.

(** [regex.test(s)]: a match starting anywhere in [s]. *)
Fixpoint test (atoms : list Atom) (s : string) : bool :=
  match_here s atoms
  || match s with
     | EmptyString => false
     | String _ t => test atoms t
     end.

Definition non_space (c : ascii) : bool := negb (is_space c).

(** [/\S+@\S+\.\S+/] *)
Definition email_regex : list Atom :=
  [ mkAtom non_space OneOrMore; mkAtom (Ascii.eqb "@") Once;
    mkAtom non_space OneOrMore; mkAtom (Ascii.eqb ".") Once;
    mkAtom non_space OneOrMore ].

Section Form.
(** The numbers [Number(e.target.value)] gives for attendance and
    performance; the form stores them and never computes with them. *)
Context {number : Type}.

(** [interface EmployeeFormData]; [age] is [Number.parseInt(...) || 18] or the
    initial 25, an integer. *)
Record EmployeeFormData : Type := mkFormData {
  name : string;
  email : string;
  phone : string;
  age : Z;
  class : string;
  attendance : number;
  subjects : list string;
  department : string;
  position : string;
  joinDate : string;
  address : string;
  bio : string;
  education : list string;
  skills : list string;
  performance : number;
  notes : string;
  profileImage : string
}.

(** The component's state cells the handlers touch. *)
Record Modal : Type := mkModal {
  formData : EmployeeFormData;
  newSubject : string;
  newEducation : string;
  newSkill : string;
  errors : list (string * string)     (* keys in insertion order *)
}.

Definition setFormData (f : EmployeeFormData -> EmployeeFormData) (m : Modal) : Modal :=
  mkModal (f (formData m)) (newSubject m) (newEducation m) (newSkill m) (errors m).

Definition setNewSubject (v : string) (m : Modal) : Modal :=
  mkModal (formData m) v (newEducation m) (newSkill m) (errors m).

Definition setNewEducation (v : string) (m : Modal) : Modal :=
  mkModal (formData m) (newSubject m) v (newSkill m) (errors m).

Definition setNewSkill (v : string) (m : Modal) : Modal :=
  mkModal (formData m) (newSubject m) (newEducation m) v (errors m).

Definition setErrors (e : list (string * string)) (m : Modal) : Modal :=
  mkModal (formData m) (newSubject m) (newEducation m) (newSkill m) e.

(** The [field] argument of [addItem] and [removeItem]. *)
Inductive ListField : Type := Subjects | Education | Skills.

(** [prev[field]] *)
Definition get_list (f : ListField) (d : EmployeeFormData) : list string :=
  match f with
  | Subjects => subjects d
  | Education => education d
  | Skills => skills d
  end.

(** [{ ...prev, [field]: l }] *)
Definition set_list (f : ListField) (l : list string) (d : EmployeeFormData)
  : EmployeeFormData :=
  match f with
  | Subjects =>
      mkFormData (name d) (email d) (phone d) (age d) (class d) (attendance d)
        l (department d) (position d) (joinDate d) (address d) (bio d)
        (education d) (skills d) (performance d) (notes d) (profileImage d)
  | Education =>
      mkFormData (name d) (email d) (phone d) (age d) (class d) (attendance d)
        (subjects d) (department d) (position d) (joinDate d) (address d) (bio d)
        l (skills d) (performance d) (notes d) (profileImage d)
  | Skills =>
      mkFormData (name d) (email d) (phone d) (age d) (class d) (attendance d)
        (subjects d) (department d) (position d) (joinDate d) (address d) (bio d)
        (education d) l (performance d) (notes d) (profileImage d)
  end.

Definition addItem (field : ListField) (value : string)
  (setter : string -> Modal -> Modal) (m : Modal) : Modal :=
  if falsy (trim value) then m
  else
    setter EmptyString
      (setFormData (fun prev => set_list field (get_list field prev ++ [trim value]) prev)
                   m).

(** [l.filter((_, i) => i !== index)], [i] counting from [from]. *)
Fixpoint filter_out_index (index from : nat) (l : list string) : list string :=
  match l with
  | [] => []
  | x :: r =>
      if Nat.eqb from index then filter_out_index index (S from) r
      else x :: filter_out_index index (S from) r
  end.

Definition removeItem (field : ListField) (index : nat) (m : Modal) : Modal :=
  setFormData (fun prev => set_list field (filter_out_index index 0 (get_list field prev))
                                    prev) m.

(** [newErrors.key = message] on an object that has no such key yet. *)
Definition set_error (key msg : string) (e : list (string * string))
  : list (string * string) :=
  (e ++ [(key, msg)])%list.

Definition validateForm (m : Modal) : Modal * bool :=
  let d := formData m in
  let newErrors := [] in
  let newErrors :=
    if falsy (trim (name d)) then set_error "name" "Name is required" newErrors
    else newErrors in
  let newErrors :=
    if falsy (trim (email d)) then set_error "email" "Email is required" newErrors
    else if negb (test email_regex (email d))
         then set_error "email" "Email is invalid" newErrors
         else newErrors in
  let newErrors :=
    if ((age d <? 18) || (age d >? 100))%Z
    then set_error "age" "Age must be between 18 and 100" newErrors
    else newErrors in
  let newErrors :=
    if falsy (class d) then set_error "class" "Class is required" newErrors
    else newErrors in
  let newErrors :=
    if falsy (trim (department d))
    then set_error "department" "Department is required" newErrors
    else newErrors in
  let newErrors :=
    if falsy (trim (position d))
    then set_error "position" "Position is required" newErrors
    else newErrors in
  (setErrors newErrors m, Nat.eqb (List.length newErrors) 0).

(** The state the component starts in; [today] is
    [new Date().toISOString().split("T")[0]], [hundred] and [seven] the
    numbers 100 and 7. *)
Definition initialModal (hundred seven : number) (today : string) : Modal :=
  {| formData :=
       {| name := EmptyString; email := EmptyString; phone := EmptyString;
          age := 25; class := EmptyString; attendance := hundred;
          subjects := []; department := EmptyString; position := EmptyString;
          joinDate := today; address := EmptyString; bio := EmptyString;
          education := []; skills := []; performance := seven;
          notes := EmptyString; profileImage := EmptyString |};
     newSubject := EmptyString; newEducation := EmptyString;
     newSkill := EmptyString; errors := [] |}.

End Form.

(** Every unit of [s] is in the class [p]. *)
Fixpoint all_of (p : ascii -> bool) (s : string) : bool :=
  match s with
  | EmptyString => true
  | String c t => p c && all_of p t
  end.

(** A non-empty run of units none of which is white space. *)
Definition word (s : string) : Prop :=
  s <> EmptyString /\ all_of non_space s = true.

(** A string that does not start with white space. *)
Definition starts_clean (s : string) : Prop :=
  match s with
  | EmptyString => True
  | String c _ => is_space c = false
  end.

(** No item is blank or carries white space at either end. *)
Definition tidy (l : list string) : Prop :=
  Forall (fun x => x <> EmptyString /\ trim x = x) l.

End EmployeeForm.

(** ** A reference implementation of the collaborators

    A small executable stand-in for [jsonwebtoken] and [bcryptjs], used to run
    the model on concrete requests.  A token is the sequence of its
    length-prefixed fields; the signing key is carried as the last field. *)

Module Toy.

Fixpoint bits_of_pos (p : positive) : string :=
  match p with
  | xH => EmptyString
  | xO q => String "0" (bits_of_pos q)
  | xI q => String "1" (bits_of_pos q)
  end.

Fixpoint pos_of_bits (s : string) : option positive :=
  match s with
  | EmptyString => Some xH
  | String c t =>
      match pos_of_bits t with
      | Some q =>
          if Ascii.eqb c "0" then Some (xO q)
          else if Ascii.eqb c "1" then Some (xI q)
          else None
      | None => None
      end
  end.

Definition string_of_Z (z : Z) : string :=
  match z with
  | Z0 => "z"
  | Zpos p => String "p" (bits_of_pos p)
  | Zneg p => String "n" (bits_of_pos p)
  end.

Definition Z_of_string (s : string) : option Z :=
  match s with
  | String c t =>
      if Ascii.eqb c "z" then
        match t with EmptyString => Some Z0 | _ => None end
      else if Ascii.eqb c "p" then option_map Zpos (pos_of_bits t)
      else if Ascii.eqb c "n" then option_map Zneg (pos_of_bits t)
      else None
  | EmptyString => None
  end.

Definition string_of_Role (r : Role) : string :=
  match r with
  | ADMIN => "admin"
  | EMPLOYEE => "employee"
  end.

Definition Role_of_string (s : string) : option Role :=
  if String.eqb s "admin" then Some ADMIN
  else if String.eqb s "employee" then Some EMPLOYEE
  else None.

Fixpoint tally (n : nat) : string :=
  match n with
  | O => "."
  | S m => String "a" (tally m)
  end.

(** [frame s]: the length of [s] in tally marks, a dot, then [s]. *)
Definition frame (s : string) : string := tally (String.length s) ++ s.

Fixpoint take (n : nat) (s : string) : option (string * string) :=
  match n with
  | O => Some (EmptyString, s)
  | S m =>
      match s with
      | String c t =>
          match take m t with
          | Some (h, r) => Some (String c h, r)
          | None => None
          end
      | EmptyString => None
      end
  end.

Fixpoint unframe_from (n : nat) (s : string) : option (string * string) :=
  match s with
  | String c t =>
      if Ascii.eqb c "a" then unframe_from (S n) t
      else if Ascii.eqb c "." then take n t
      else None
  | EmptyString => None
  end.

Definition unframe (s : string) : option (string * string) := unframe_from 0 s.

Definition encode (u : AuthUser) (issued expires : Z) (key : string) : string :=
  frame (string_of_Z (Z.of_N (au_id u))) ++ frame (au_name u)
  ++ frame (au_email u) ++ frame (string_of_Role (au_role u))
  ++ frame (string_of_Z issued) ++ frame (string_of_Z expires) ++ frame key.

Definition decode (s : string) : option (JwtPayload * string) :=
  match unframe s with
  | Some (f_id, s) =>
  match unframe s with
  | Some (f_name, s) =>
  match unframe s with
  | Some (f_email, s) =>
  match unframe s with
  | Some (f_role, s) =>
  match unframe s with
  | Some (f_iat, s) =>
  match unframe s with
  | Some (f_exp, s) =>
  match unframe s with
  | Some (key, EmptyString) =>
      match Z_of_string f_id, Role_of_string f_role,
            Z_of_string f_iat, Z_of_string f_exp with
      | Some i, Some r, Some issued, Some expires =>
          Some ({| claim_user := Some (mkAuthUser (Z.to_N i) f_name f_email r);
                   iat := issued; exp := expires |}, key)
      | _, _, _, _ => None
      end
  | _ => None end
  | None => None end
  | None => None end
  | None => None end
  | None => None end
  | None => None end
  | None => None end.

Definition sign (u : AuthUser) (secret : string) (issued ttl : Z) : string :=
  encode u issued (issued + ttl) secret.

(** As [jsonwebtoken]: malformed, then the signature, then the expiry
    ([now >= exp] is expired). *)
Definition verify (token secret : string) (now : Z) : Outcome JwtPayload :=
  match decode token with
  | None => Throw (JsonWebTokenError "jwt malformed")
  | Some (p, key) =>
      if negb (String.eqb key secret) then Throw (JsonWebTokenError "invalid signature")
      else if (exp p <=? now)%Z then Throw (TokenExpiredError "jwt expired")
      else Return p
  end.

#[export] Instance collaborators : Collaborators := {
  env_JWT_SECRET := None;
  jwt_sign := sign;
  jwt_verify := verify;
  bcrypt_hash := fun p => "$2a$10$" ++ p;
  bcrypt_compare := fun candidate digest => String.eqb digest ("$2a$10$" ++ candidate);
  schema_validate := fun u => negb (String.eqb (name u) EmptyString)
}.

(** A well-formed token whose payload is the empty object: it decodes, and
    has no [user] member. *)
Definition empty_payload_token : string := "eyJhbGciOiJIUzI1NiJ9.e30.c2ln".

(** The client's decoder: no signature check, same token layout; it also
    decodes [empty_payload_token]. *)
Definition jwtDecode (token : string) : Outcome Client.Decoded :=
  match decode token with
  | Some ({| claim_user := Some u |}, _) =>
      Return (Client.mkDecoded
                (Some (Client.mkUser (string_of_Z (Z.of_N (au_id u))) (au_email u)
                                     (au_name u) (au_role u))))
  | _ =>
      if String.eqb token empty_payload_token then Return (Client.mkDecoded None)
      else Throw (InvalidTokenError "Invalid token specified")
  end.

(** A fresh deployment at some time of day, and a request made against it. *)
Definition empty_world : World :=
  {| users := []; db_up := true; next_oid := 1%N; clock := 1000%Z; trace := [] |}.

Definition alice : RegisterInput :=
  {| in_name := "Alice"; in_email := "a@x.com"; in_password := "secret1234";
     in_role := None |}.

Definition alice2 : RegisterInput :=
  {| in_name := "Alice2"; in_email := "a@x.com"; in_password := "other1234";
     in_role := None |}.

(** The world after [register alice] in [empty_world], and its token. *)
Definition alice_doc : UserDoc :=
  mkUserDoc 1%N "Alice" "a@x.com" "$2a$10$secret1234" EMPLOYEE.

Definition alice_token : string :=
  sign (mkAuthUser 1%N "Alice" "a@x.com" EMPLOYEE) "your-secret-key" 1000 604800.

Definition registered_world : World :=
  {| users := [alice_doc]; db_up := true; next_oid := 2%N; clock := 1000%Z;
     trace := [EvFindOne "a@x.com"; EvInsert 1%N; EvJwtSign 1%N] |}.

(** The same world with the store unreachable. *)
Definition unplugged (w : World) : World :=
  {| users := users w; db_up := false; next_oid := next_oid w;
     clock := clock w; trace := trace w |}.

(** The stored name and role have changed since the token was issued. *)
Definition promoted_world : World :=
  set_users [mkUserDoc 1%N "Alicia" "a@x.com" "$2a$10$secret1234" ADMIN]
            registered_world.

Definition alice_header : option string := Some ("Bearer " ++ alice_token).

(** A browser session logged in as Alice. *)
Definition alice_session : Client.Session :=
  Client.login jwtDecode alice_token (Client.mount jwtDecode (Client.initial None)).

#[export] Instance timestamps : Timestamps := {
  createdAt_ISO := fun _ _ => Some "2024-01-01T00:00:00.000Z";
  updatedAt_ISO := fun w _ => Some (string_of_Z (clock w))
}.

(** A second account beside Alice's. *)
Definition bob_doc : UserDoc :=
  mkUserDoc 2%N "Bob" "b@x.com" "$2a$10$hunter2hunter2" ADMIN.

Definition two_users_world : World :=
  {| users := [alice_doc; bob_doc]; db_up := true; next_oid := 3%N;
     clock := 2000%Z; trace := [] |}.

Definition alice_ctx : RequestContext :=
  {| user := Some (mkAuthUser 1%N "Alice" "a@x.com" EMPLOYEE) |}.

(** Alice moves to another address and sends an empty name along. *)
Definition alice_moves : UpdateProfileInput :=
  {| up_name := Some EmptyString; up_email := Some "alice@x.com" |}.

(** A caller whose account is not in the collection. *)
Definition ghost_ctx : RequestContext :=
  {| user := Some (mkAuthUser 9%N "Ghost" "g@x.com" EMPLOYEE) |}.

(** The add-employee form as it opens. *)
Definition fresh_form : @EmployeeForm.Modal Z :=
  EmployeeForm.initialModal 100%Z 7%Z "2024-01-01".

(** A registration that asks for a role. *)
Definition carol : RegisterInput :=
  {| in_name := "Carol"; in_email := "c@x.com"; in_password := "carolcarol";
     in_role := Some ADMIN |}.

Definition carol_token : string :=
  sign (mkAuthUser 3%N "Carol" "c@x.com" ADMIN) "your-secret-key" 2000 604800.

(** The same world an hour later. *)
Definition an_hour_later (w : World) : World :=
  {| users := users w; db_up := db_up w; next_oid := next_oid w;
     clock := (clock w + 3600)%Z; trace := trace w |}.

End Toy.

(** ** Vocabulary of the specification *)

(** The identity the verifier reads off a stored document. *)
Definition identity_of (u : UserDoc) : AuthUser :=
  {| au_id := _id u; au_name := name u; au_email := email u; au_role := role u |}.

(** The document a registration persists in world [w]. *)
Definition registered_doc {C : Collaborators} (input : RegisterInput) (w : World)
  : UserDoc :=
  mkUserDoc (next_oid w) (in_name input) (in_email input)
            (bcrypt_hash (in_password input)) (role_or_default (in_role input)).

(** What follows the scheme in an [Authorization] value: the text after its
    first space, if it has one. *)
Fixpoint after_first_space (s : string) : option string :=
  match s with
  | EmptyString => None
  | String c t => if Ascii.eqb c " " then Some t else after_first_space t
  end.

Fixpoint blank (s : string) : bool :=
  match s with
  | EmptyString => true
  | String c t => Ascii.eqb c " " && blank t
  end.

(** The header is absent, or nothing but spaces follows its scheme. *)
Definition no_bearer_token (authorization : option string) : bool :=
  match authorization with
  | None => true
  | Some h =>
      match after_first_space h with
      | None => true
      | Some rest => blank rest
      end
  end.

(** "Verifying the token of a registration, while the user still exists and
    the token is unexpired, returns a user whose id, email and role are the
    registered ones."  The id a registration in [w] assigns is [next_oid w]. *)
Definition register_token_verifies_to_registered (C : Collaborators) : Prop :=
  forall (input : RegisterInput) (w w1 w2 : World) (ap : AuthPayload) (doc2 : UserDoc),
    register input w = (Return ap, w1) ->
    db_up w2 = true ->
    (clock w2 < clock w + seven_days)%Z ->
    find (has_id (next_oid w)) (users w2) = Some doc2 ->
    exists r : AuthUser,
      fst (verifyToken (token ap) w2) = Return (Some r)
      /\ au_id r = next_oid w
      /\ au_email r = in_email input
      /\ au_role r = match in_role input with Some r => r | None => EMPLOYEE end.

(** "Every authenticated [changePassword] with a new password of fewer than
    8 characters returns a structured failure and leaves the collection as
    it was." *)
Definition short_password_is_soft_failure (C : Collaborators) : Prop :=
  forall (cur new : string) (ctx : RequestContext) (u : AuthUser) (w : World),
    user ctx = Some u ->
    (String.length new < 8)%nat ->
    exists m : string,
      fst (changePassword cur new ctx w) = Return {| success := false; message := m |}
      /\ users (snd (changePassword cur new ctx w)) = users w.

(** "A failure of the store during verification reaches the caller": the
    lookup of the embedded id throws, and so does [verifyToken]. *)
Definition store_failure_propagates (C : Collaborators) : Prop :=
  forall (token : string) (w : World) (p : JwtPayload) (claims : AuthUser) (e : Error),
    jwt_verify token JWT_SECRET (clock w) = Return p ->
    claim_user p = Some claims ->
    fst (User_findById (au_id claims) w) = Throw e ->
    fst (verifyToken token w) = Throw e.

(** "A client [login] whose decode fails ends anonymous; one whose decode
    succeeds persists the token and ends authenticated." *)
Definition login_ends_as_decoded (jwtDecode : string -> Outcome Client.Decoded) : Prop :=
  forall (token : string) (s : Client.Session),
    (forall e, jwtDecode token = Throw e ->
       Client.st_user (Client.login jwtDecode token s) = None
       /\ Client.isAuthenticated (Client.login jwtDecode token s) = false)
    /\ (forall d, jwtDecode token = Return d ->
          Client.storage_token (Client.login jwtDecode token s) = Some token
          /\ Client.isAuthenticated (Client.login jwtDecode token s) = true).

(** The store is well formed: no two documents share an [_id] or an email. *)
Definition store_ok (us : list UserDoc) : Prop :=
  NoDup (map _id us) /\ NoDup (map email us).

Fixpoint no_space (s : string) : bool :=
  match s with
  | EmptyString => true
  | String c t => negb (Ascii.eqb c " ") && no_space t
  end.

(** The stored document after a change of password to [new]. *)
Definition with_digest_of {C : Collaborators} (new : string) (d : UserDoc) : UserDoc :=
  mkUserDoc (_id d) (name d) (email d) (bcrypt_hash new) (role d).

(** The text of [s] up to its first space. *)
Fixpoint first_word (s : string) : string :=
  match s with
  | EmptyString => EmptyString
  | String c t => if Ascii.eqb c " " then EmptyString else String c (first_word t)
  end.

(** * Properties *)

(** ** The reference collaborators satisfy [JwtLaws] *)

Module ToyFacts.
Import Toy.

Lemma pos_of_bits_of_pos (p : positive) : pos_of_bits (bits_of_pos p) = Some p.
Proof. induction p as [q IH | q IH | ]; simpl; try rewrite IH; reflexivity. Qed.

Lemma Z_of_string_of_Z (z : Z) : Z_of_string (string_of_Z z) = Some z.
Proof.
  destruct z as [ | p | p]; simpl; try rewrite pos_of_bits_of_pos; reflexivity.
Qed.

Lemma Role_of_string_of_Role (r : Role) : Role_of_string (string_of_Role r) = Some r.
Proof. destruct r; reflexivity. Qed.

Lemma take_length_app (s r : string) : take (String.length s) (s ++ r) = Some (s, r).
Proof. induction s as [ | c s IH]; simpl; [ | rewrite IH]; reflexivity. Qed.

Lemma unframe_from_tally (m n : nat) (r : string) :
  unframe_from n (tally m ++ r) = take (n + m) r.
Proof.
  revert n; induction m as [ | m IH]; intros n; simpl.
  - now rewrite Nat.add_0_r.
  - rewrite IH. f_equal. lia.
Qed.

Lemma append_assoc (a b c : string) : (a ++ b) ++ c = a ++ (b ++ c).
Proof. induction a as [ | x a IH]; simpl; [ | rewrite IH]; reflexivity. Qed.

Lemma unframe_frame (s r : string) : unframe (frame s ++ r) = Some (s, r).
Proof.
  unfold unframe, frame. rewrite append_assoc, unframe_from_tally.
  apply take_length_app.
Qed.

Lemma append_empty (a : string) : a ++ EmptyString = a.
Proof. induction a as [ | x a IH]; simpl; [ | rewrite IH]; reflexivity. Qed.

Lemma decode_encode (u : AuthUser) (issued expires : Z) (key : string) :
  decode (encode u issued expires key)
  = Some ({| claim_user := Some u; iat := issued; exp := expires |}, key).
Proof.
  unfold decode, encode.
  repeat rewrite unframe_frame.
  rewrite <- (append_empty (frame key)), unframe_frame.
  rewrite !Z_of_string_of_Z, Role_of_string_of_Role, N2Z.id.
  destruct u; reflexivity.
Qed.

Lemma verify_sign (u : AuthUser) (secret : string) (issued ttl now : Z) :
  (now < issued + ttl)%Z ->
  verify (sign u secret issued ttl) secret now
  = Return {| claim_user := Some u; iat := issued; exp := (issued + ttl)%Z |}.
Proof.
  intros Hlt. unfold verify, sign. rewrite decode_encode, String.eqb_refl. simpl.
  destruct (Z.leb_spec (issued + ttl) now); [lia | reflexivity].
Qed.

#[export] Instance laws : JwtLaws collaborators.
Proof. constructor. exact verify_sign. Qed.

End ToyFacts.

(** ** The token verifier *)

Section VerifierProps.
Context {C : Collaborators}.

Lemma find_has_id_Some (i : ObjectId) (us : list UserDoc) (u : UserDoc) :
  find (has_id i) us = Some u -> In u us /\ _id u = i.
Proof.
  intros H. apply find_some in H. destruct H as [Hin Hid].
  split; [exact Hin | now apply N.eqb_eq].
Qed.

Lemma find_has_id_None (i : ObjectId) (us : list UserDoc) :
  (forall u, In u us -> _id u <> i) -> find (has_id i) us = None.
Proof.
  intros H. destruct (find (has_id i) us) as [u | ] eqn:E; [ | reflexivity].
  apply find_has_id_Some in E. destruct E as [Hin Hid]. now apply H in Hin.
Qed.

(** The whole of [verifyToken], by cases on what [jwt.verify] and the store
    answer. *)
Lemma verifyToken_unfold (token : string) (w : World) :
  verifyToken token w =
  let w1 := log (EvJwtVerify token) w in
  match jwt_verify token JWT_SECRET (clock w) with
  | Throw _ => (Return None, w1)
  | Return p =>
      match claim_user p with
      | None => (Return None, w1)
      | Some claims =>
          (Return (if db_up w
                   then option_map identity_of (find (has_id (au_id claims)) (users w))
                   else None),
           log (EvFindById (au_id claims)) w1)
      end
  end.
Proof.
  unfold verifyToken, try_catch, bind, jwt_verify_now, User_findById, throw, ret.
  simpl.
  destruct (jwt_verify token JWT_SECRET (clock w)) as [p | e]; [ | reflexivity].
  destruct (claim_user p) as [claims | ]; [ | reflexivity].
  cbn [db_up users log].
  destruct (db_up w); [ | reflexivity].
  destruct (find (has_id (au_id claims)) (users w)); reflexivity.
Qed.

(** What a non-null result tells. *)
Lemma verifyToken_Some (token : string) (w w' : World) (r : AuthUser) :
  verifyToken token w = (Return (Some r), w') ->
  exists p claims doc,
    jwt_verify token JWT_SECRET (clock w) = Return p
    /\ claim_user p = Some claims
    /\ db_up w = true
    /\ find (has_id (au_id claims)) (users w) = Some doc
    /\ r = identity_of doc
    /\ w' = log (EvFindById (au_id claims)) (log (EvJwtVerify token) w).
Proof.
  rewrite verifyToken_unfold. cbv zeta. intros H.
  destruct (jwt_verify token JWT_SECRET (clock w)) as [p | e]; [ | discriminate H].
  destruct (claim_user p) as [claims | ] eqn:Hc; [ | discriminate H].
  destruct (db_up w); [ | discriminate H].
  destruct (find (has_id (au_id claims)) (users w)) as [doc | ] eqn:Hf;
    [ | discriminate H].
  injection H as Hr Hw. exists p, claims, doc. now repeat split.
Qed.

(** C3: [verifyToken] returns on every token and in every world; when
    [jwt.verify] rejects the token (malformed, bad signature, expired) the
    value returned is [null]. *)
Theorem verifyToken_never_throws (token : string) (w : World) :
  exists (r : option AuthUser) (w' : World),
    verifyToken token w = (Return r, w')
    /\ (forall e, jwt_verify token JWT_SECRET (clock w) = Throw e -> r = None).
Proof.
  rewrite verifyToken_unfold. cbv zeta.
  destruct (jwt_verify token JWT_SECRET (clock w)) as [p | e0].
  - destruct (claim_user p) as [claims | ]; eexists; eexists; split;
      try reflexivity; intros e He; discriminate He.
  - exists None. eexists. split; [reflexivity | intros; reflexivity].
Qed.

(** C2: a non-null result means the id embedded in the token belongs to a
    document of the collection at verification time; and a token that
    verifies (good signature, unexpired) but whose id no document carries any
    more yields [null]. *)
Theorem verifyToken_requires_live_user :
  (forall (token : string) (w w' : World) (r : AuthUser),
      verifyToken token w = (Return (Some r), w') ->
      exists p claims doc,
        jwt_verify token JWT_SECRET (clock w) = Return p
        /\ claim_user p = Some claims
        /\ In doc (users w) /\ _id doc = au_id claims)
  /\ (forall (token : string) (w : World) (p : JwtPayload) (claims : AuthUser),
        jwt_verify token JWT_SECRET (clock w) = Return p ->
        claim_user p = Some claims ->
        (forall doc, In doc (users w) -> _id doc <> au_id claims) ->
        fst (verifyToken token w) = Return None).
Proof.
  split.
  - intros token w w' r H.
    destruct (verifyToken_Some _ _ _ _ H) as (p & claims & doc & Hv & Hc & _ & Hf & _).
    apply find_has_id_Some in Hf. destruct Hf as [Hin Hid].
    exists p, claims, doc. repeat split; assumption.
  - intros token w p claims Hv Hc Hgone.
    rewrite verifyToken_unfold. cbv zeta. rewrite Hv, Hc. simpl.
    rewrite (find_has_id_None _ _ Hgone). now destruct (db_up w).
Qed.

(** C7: a non-null result is, field by field, the document fetched from the
    collection under the embedded id; the name, email and role embedded in
    the token do not enter it. *)
Theorem verifyToken_returns_stored_fields
  (token : string) (w w' : World) (r : AuthUser) :
  verifyToken token w = (Return (Some r), w') ->
  exists p claims doc,
    jwt_verify token JWT_SECRET (clock w) = Return p
    /\ claim_user p = Some claims
    /\ fst (User_findById (au_id claims) w) = Return (Some doc)
    /\ au_id r = _id doc /\ au_name r = name doc
    /\ au_email r = email doc /\ au_role r = role doc.
Proof.
  intros H.
  destruct (verifyToken_Some _ _ _ _ H) as (p & claims & doc & Hv & Hc & Hup & Hf & Hr & _).
  exists p, claims, doc. unfold User_findById. rewrite Hup, Hf, Hr.
  repeat split; assumption.
Qed.

(** C8, as the code has it: when the store does not answer, [verifyToken]
    catches the failure and returns [null], whatever the token. *)
Theorem verifyToken_swallows_store_failure (token : string) (w : World) :
  db_up w = false ->
  fst (verifyToken token w) = Return None.
Proof.
  intros Hdown. rewrite verifyToken_unfold. cbv zeta. rewrite Hdown.
  destruct (jwt_verify token JWT_SECRET (clock w)) as [p | e]; [ | reflexivity].
  destruct (claim_user p); reflexivity.
Qed.

End VerifierProps.

(** ** The credential issuer *)

Section IssuerProps.
Context {C : Collaborators}.

Lemma find_has_email_In (e : string) (us : list UserDoc) (u : UserDoc) :
  In u us -> email u = e -> exists v, find (has_email e) us = Some v.
Proof.
  intros Hin He. destruct (find (has_email e) us) as [v | ] eqn:E.
  - now exists v.
  - apply (find_none _ _ E) in Hin. unfold has_email in Hin.
    rewrite He, String.eqb_refl in Hin. discriminate Hin.
Qed.

Lemma find_has_email_None (e : string) (us : list UserDoc) :
  (forall u, In u us -> email u <> e) -> find (has_email e) us = None.
Proof.
  intros H. destruct (find (has_email e) us) as [u | ] eqn:E; [ | reflexivity].
  apply find_some in E. destruct E as [Hin He].
  apply String.eqb_eq in He. now apply H in Hin.
Qed.

Lemma find_app_fresh (u : UserDoc) (us : list UserDoc) :
  existsb (fun v => has_id (_id u) v || has_email (email u) v) us = false ->
  find (has_id (_id u)) (us ++ [u])%list = Some u.
Proof.
  induction us as [ | v vs IH]; simpl; intros H.
  - unfold has_id. now rewrite N.eqb_refl.
  - apply orb_false_elim in H. destruct H as [Hv Hvs].
    apply orb_false_elim in Hv. destruct Hv as [Hid _].
    rewrite Hid. now apply IH.
Qed.

(** What a registration that returns has done. *)
Lemma register_success (input : RegisterInput) (w w1 : World) (ap : AuthPayload) :
  register input w = (Return ap, w1) ->
  let doc := registered_doc input w in
  db_up w = true
  /\ find (has_email (in_email input)) (users w) = None
  /\ existsb (fun v => has_id (_id doc) v || has_email (email doc) v) (users w) = false
  /\ users w1 = (users w ++ [doc])%list
  /\ db_up w1 = true /\ clock w1 = clock w
  /\ token ap = jwt_sign (identity_of doc) JWT_SECRET (clock w) seven_days.
Proof.
  unfold register, bind, User_findOne, new_User, save, token_for, jwt_sign_now,
    throw, ret.
  destruct (db_up w) eqn:Hup; [ | discriminate].
  destruct (find (has_email (in_email input)) (users w)); [discriminate | ].
  cbn [db_up users log fields isNew passwordModified _id name email password role
       next_oid clock set_users].
  rewrite Hup. cbn [negb].
  destruct (schema_validate _); cbn [negb]; [ | discriminate].
  change (mkUserDoc (next_oid w) (in_name input) (in_email input)
            (bcrypt_hash (in_password input)) (role_or_default (in_role input)))
    with (registered_doc input w).
  destruct (existsb _ (users w)) eqn:Hdup; [discriminate | ].
  cbn [db_up users log fields clock set_users].
  intros H. injection H as Hap Hw. subst ap w1.
  cbn [db_up users log clock set_users token].
  repeat split; try reflexivity; assumption.
Qed.

(** C1, as the code has it: after a registration that returns a token, the
    persisted document carries the registered name and email and the role
    asked for, employee when none was; verifying that token in any world
    where the store answers, the token is unexpired and a document still
    has the registered id returns a user with that id and with the name,
    email and role of that document as it then is; right after the
    registration that document is the registered one. *)
Theorem register_then_verify {L : JwtLaws C}
  (input : RegisterInput) (w w1 : World) (ap : AuthPayload) :
  register input w = (Return ap, w1) ->
  exists doc : UserDoc,
    In doc (users w1)
    /\ name doc = in_name input
    /\ email doc = in_email input
    /\ role doc = match in_role input with Some r => r | None => EMPLOYEE end
    /\ (forall (w2 : World) (doc2 : UserDoc),
          db_up w2 = true ->
          (clock w2 < clock w + seven_days)%Z ->
          find (has_id (_id doc)) (users w2) = Some doc2 ->
          fst (verifyToken (token ap) w2)
          = Return (Some {| au_id := _id doc; au_name := name doc2;
                            au_email := email doc2; au_role := role doc2 |}))
    /\ db_up w1 = true /\ clock w1 = clock w
    /\ find (has_id (_id doc)) (users w1) = Some doc
    /\ fst (verifyToken (token ap) w1)
       = Return (Some {| au_id := _id doc; au_name := in_name input;
                         au_email := in_email input;
                         au_role := match in_role input with
                                    | Some r => r
                                    | None => EMPLOYEE
                                    end |}).
Proof.
  intros H. apply register_success in H. cbv zeta in H.
  destruct H as (Hup & Hnew & Hfresh & Hus & Hup1 & Hclk & Htok).
  assert (Hverify : forall (w2 : World) (doc2 : UserDoc),
             db_up w2 = true ->
             (clock w2 < clock w + seven_days)%Z ->
             find (has_id (_id (registered_doc input w))) (users w2) = Some doc2 ->
             fst (verifyToken (token ap) w2)
             = Return (Some {| au_id := _id (registered_doc input w);
                               au_name := name doc2; au_email := email doc2;
                               au_role := role doc2 |})).
  { intros w2 doc2 Hup2 Hlive Hfind.
    rewrite verifyToken_unfold. cbv zeta. rewrite Htok.
    rewrite (jwt_verify_sign _ _ _ _ _ Hlive).
    cbn [claim_user identity_of au_id]. rewrite Hup2, Hfind.
    destruct (find_has_id_Some _ _ _ Hfind) as [_ Hid].
    cbn [option_map fst]. unfold identity_of. now rewrite Hid. }
  assert (Hfound : find (has_id (_id (registered_doc input w))) (users w1)
                   = Some (registered_doc input w))
    by (rewrite Hus; now apply find_app_fresh).
  assert (Hrole : role (registered_doc input w)
                  = match in_role input with Some r => r | None => EMPLOYEE end)
    by (unfold registered_doc, role_or_default; cbn [role]; now destruct (in_role input)).
  exists (registered_doc input w).
  split; [rewrite Hus; apply in_or_app; right; left; reflexivity | ].
  split; [reflexivity | ]. split; [reflexivity | ]. split; [exact Hrole | ].
  split; [exact Hverify | ].
  split; [exact Hup1 | ]. split; [exact Hclk | ]. split; [exact Hfound | ].
  rewrite (Hverify w1 (registered_doc input w) Hup1 ltac:(rewrite Hclk; unfold seven_days; lia)
             Hfound).
  now rewrite <- Hrole.
Qed.

(** C4: when the store answers and some user already has the email, [register]
    throws [UserInputError('Email already exists')] and the collection is
    what it was. *)
Theorem register_duplicate_email
  (input : RegisterInput) (w : World) (u : UserDoc) :
  db_up w = true ->
  In u (users w) ->
  email u = in_email input ->
  exists w' : World,
    register input w = (Throw (UserInputError "Email already exists"), w')
    /\ users w' = users w.
Proof.
  intros Hup Hin He.
  destruct (find_has_email_In _ _ _ Hin He) as [v Hv].
  unfold register, bind, User_findOne, throw. rewrite Hup, Hv.
  eexists. split; reflexivity.
Qed.

(** C5: a login with an email no user has and a login with the email of a
    user but a password that does not match both throw a [UserInputError]
    with one and the same message, whatever the two requests and stores. *)
Theorem login_failures_indistinguishable
  (w1 w2 : World) (e1 p1 e2 p2 : string) (u : UserDoc) :
  db_up w1 = true ->
  (forall v, In v (users w1) -> email v <> e1) ->
  db_up w2 = true ->
  find (has_email e2) (users w2) = Some u ->
  bcrypt_compare p2 (password u) = false ->
  exists (m : string),
    fst (login e1 p1 w1) = Throw (UserInputError m)
    /\ fst (login e2 p2 w2) = Throw (UserInputError m).
Proof.
  intros Hup1 Hnone Hup2 Hfound Hbad.
  exists "Invalid email or password".
  unfold login, bind, User_findOne, comparePassword, throw, ret.
  rewrite Hup1, Hup2, Hfound, (find_has_email_None _ _ Hnone), Hbad.
  split; reflexivity.
Qed.

Lemma context_unfold (authorization : option string) (w : World) :
  context authorization w =
  let token :=
    or_empty (match authorization with
              | None => None
              | Some h => nth_error (split_space h) 1
              end) in
  if truthy token then
    match verifyToken token w with
    | (Return u, w') => (Return {| user := u |}, w')
    | (Throw e, w') => (Throw e, w')
    end
  else (Return {| user := None |}, w).
Proof.
  unfold context, bind, ret. cbv zeta.
  destruct (truthy _); [ | reflexivity].
  destruct (verifyToken _ w) as [[u | e] w']; reflexivity.
Qed.

(** [changePassword] for a caller whose identity resolves in the store. *)
Lemma changePassword_short (cur new : string) (ctx : RequestContext)
  (u : AuthUser) (doc : UserDoc) (w : World) :
  user ctx = Some u ->
  db_up w = true ->
  find (has_id (au_id u)) (users w) = Some doc ->
  (String.length new < 8)%nat ->
  exists (m : string) (w' : World),
    changePassword cur new ctx w = (Return {| success := false; message := m |}, w')
    /\ users w' = users w.
Proof.
  intros Hu Hup Hfind Hshort.
  unfold changePassword, bind, User_findById, comparePassword, ret.
  rewrite Hu, Hup, Hfind.
  destruct (bcrypt_compare cur (password doc)); cbn [negb].
  - apply Nat.ltb_lt in Hshort. rewrite Hshort.
    eexists. eexists. split; reflexivity.
  - eexists. eexists. split; reflexivity.
Qed.

(** In a request the [context] function authenticated, [changePassword]
    with a new password of fewer than 8 characters returns
    [{ success: false, message }] and the collection, hence every stored
    digest, is what it was. *)
Lemma changePassword_short_after_context
  (authorization : option string) (cur new : string)
  (w w1 : World) (ctx : RequestContext) (u : AuthUser) :
  context authorization w = (Return ctx, w1) ->
  user ctx = Some u ->
  (String.length new < 8)%nat ->
  exists (m : string) (w2 : World),
    changePassword cur new ctx w1 = (Return {| success := false; message := m |}, w2)
    /\ users w2 = users w.
Proof.
  intros Hctx Hu Hshort. rewrite context_unfold in Hctx. cbv zeta in Hctx.
  destruct (truthy _); [ | injection Hctx as Hc _; subst ctx; discriminate Hu].
  destruct (verifyToken _ w) as [[r | e] w1'] eqn:Hv; [ | discriminate Hctx].
  injection Hctx as Hc Hw1. subst ctx w1'. cbn [user] in Hu. subst r.
  destruct (verifyToken_Some _ _ _ _ Hv)
    as (p & claims & doc & _ & _ & Hup & Hf & Hr & Hw1).
  destruct (find_has_id_Some _ _ _ Hf) as [_ Hid].
  assert (Hfind : find (has_id (au_id u)) (users w1) = Some doc).
  { subst u w1. cbn [identity_of au_id users log]. now rewrite Hid. }
  destruct (changePassword_short cur new {| user := Some u |} u doc w1 eq_refl
              ltac:(now subst w1) Hfind Hshort) as (m & w2 & Hres & Hsame).
  exists m, w2. split; [exact Hres | now rewrite Hsame, Hw1].
Qed.

(** C6, as the code has it: for a caller that is authenticated and a new
    password of fewer than 8 characters, the collection, hence every stored
    digest, is what it was whatever [changePassword] answers; when the store
    answers and holds the caller's account the answer is the structured
    failure [{ success: false, message }], the message naming the current
    password when it does not match and the length otherwise; when the
    account is not in the store [UserInputError('User not found')] is
    thrown, and when the store does not answer its error is thrown. *)
Theorem changePassword_short_password_outcomes
  (cur new : string) (ctx : RequestContext) (u : AuthUser) (w : World) :
  user ctx = Some u ->
  (String.length new < 8)%nat ->
  users (snd (changePassword cur new ctx w)) = users w
  /\ (db_up w = true ->
      forall doc, find (has_id (au_id u)) (users w) = Some doc ->
      fst (changePassword cur new ctx w)
      = Return {| success := false;
                  message := if bcrypt_compare cur (password doc)
                             then "New password must be at least 8 characters"
                             else "Current password is incorrect" |})
  /\ (db_up w = true ->
      find (has_id (au_id u)) (users w) = None ->
      fst (changePassword cur new ctx w) = Throw (UserInputError "User not found"))
  /\ (db_up w = false ->
      fst (changePassword cur new ctx w) = Throw store_down).
Proof.
  intros Hu Hshort. apply Nat.ltb_lt in Hshort.
  unfold changePassword, bind, User_findById, comparePassword, ret, throw.
  rewrite Hu.
  destruct (db_up w) eqn:Hup.
  - destruct (find (has_id (au_id u)) (users w)) as [d | ] eqn:Hf.
    + destruct (bcrypt_compare cur (password d)) eqn:Hc; cbn [negb];
        rewrite ?Hshort; cbn [fst snd users log];
        (split; [reflexivity | ]); (split; [ | split]);
        try discriminate; intros _ doc Hdoc; injection Hdoc as <-;
        now rewrite Hc.
    + cbn [fst snd users log]. split; [reflexivity | ]. split; [ | split].
      * intros _ doc Hdoc. discriminate Hdoc.
      * reflexivity.
      * discriminate.
  - cbn [fst snd users log]. split; [reflexivity | ]. split; [ | split].
    + discriminate.
    + discriminate.
    + reflexivity.
Qed.

(** *** The [context] function *)

Lemma split_space_shape (s : string) :
  exists h : string,
    split_space s
    = h :: match after_first_space s with
           | None => []
           | Some rest => split_space rest
           end.
Proof.
  induction s as [ | c t [h IH]]; simpl.
  - now exists EmptyString.
  - destruct (Ascii.eqb c " ").
    + now exists EmptyString.
    + rewrite IH. now exists (String c h).
Qed.

Lemma split_space_blank (s : string) :
  blank s = true -> exists r, split_space s = EmptyString :: r.
Proof.
  destruct s as [ | c t]; simpl; intros H.
  - now exists [].
  - apply andb_true_iff in H. destruct H as [Hc _]. rewrite Hc.
    now exists (split_space t).
Qed.

(** C10: when the [Authorization] header is absent, or nothing but spaces
    follows its scheme, the context is [{ user: null }] and the world is
    untouched: no call to [jwt.verify], no lookup in the store. *)
Theorem context_without_token (authorization : option string) (w : World) :
  no_bearer_token authorization = true ->
  context authorization w = (Return {| user := None |}, w).
Proof.
  intros H. rewrite context_unfold. cbv zeta.
  destruct authorization as [h | ]; [ | reflexivity].
  simpl in H. destruct (split_space_shape h) as [x Hx]. rewrite Hx.
  destruct (after_first_space h) as [rest | ]; [ | reflexivity].
  destruct (split_space_blank rest H) as [r Hr]. rewrite Hr. reflexivity.
Qed.

End IssuerProps.

(** ** The client-side session context *)

Section ClientProps.
Variable jwtDecode : string -> Outcome Client.Decoded.

(** C9, as the code has it: when decoding fails, [login] logs a diagnostic
    and leaves the current user as it was, so a context that was anonymous
    ends anonymous; when decoding succeeds the token is persisted, and the
    context is authenticated as the decoded user when the payload carries
    one, and anonymous, the current user cleared, when it carries none. *)
Theorem login_decode_outcomes (token : string) (s : Client.Session) :
  (forall e, jwtDecode token = Throw e ->
     Client.st_user (Client.login jwtDecode token s) = Client.st_user s
     /\ Client.console (Client.login jwtDecode token s)
        = (Client.console s ++ ["Invalid token:"])%list
     /\ (Client.st_user s = None ->
         Client.isAuthenticated (Client.login jwtDecode token s) = false))
  /\ (forall d u, jwtDecode token = Return d -> Client.user d = Some u ->
        Client.storage_token (Client.login jwtDecode token s) = Some token
        /\ Client.st_user (Client.login jwtDecode token s) = Some u
        /\ Client.isAuthenticated (Client.login jwtDecode token s) = true)
  /\ (forall d, jwtDecode token = Return d -> Client.user d = None ->
        Client.storage_token (Client.login jwtDecode token s) = Some token
        /\ Client.st_user (Client.login jwtDecode token s) = None
        /\ Client.isAuthenticated (Client.login jwtDecode token s) = false).
Proof.
  unfold Client.login, Client.isAuthenticated. split; [ | split].
  - intros e He. rewrite He. simpl. repeat split.
    intros Hanon. now rewrite Hanon.
  - intros d u Hd Hu. rewrite Hd. simpl. rewrite Hu. repeat split.
  - intros d Hd Hu. rewrite Hd. simpl. rewrite Hu. repeat split.
Qed.

End ClientProps.

(** ** Concrete runs *)

Module Scenarios.
Import Toy ToyFacts.

Lemma register_then_verify_witness :
  register carol two_users_world
  = (Return {| token := carol_token |}, snd (register carol two_users_world))
  /\ exists doc : UserDoc,
       In doc (users (snd (register carol two_users_world)))
       /\ name doc = "Carol"
       /\ email doc = "c@x.com"
       /\ role doc = ADMIN
       /\ (forall (w2 : World) (doc2 : UserDoc),
             db_up w2 = true ->
             (clock w2 < 2000 + seven_days)%Z ->
             find (has_id (_id doc)) (users w2) = Some doc2 ->
             fst (verifyToken carol_token w2)
             = Return (Some {| au_id := _id doc; au_name := name doc2;
                               au_email := email doc2; au_role := role doc2 |}))
       /\ db_up (snd (register carol two_users_world)) = true
       /\ clock (snd (register carol two_users_world)) = 2000%Z
       /\ find (has_id (_id doc)) (users (snd (register carol two_users_world)))
          = Some doc
       /\ fst (verifyToken carol_token (snd (register carol two_users_world)))
          = Return (Some {| au_id := _id doc; au_name := "Carol";
                            au_email := "c@x.com"; au_role := ADMIN |}).
Proof.
  split.
  - vm_compute. reflexivity.
  - refine (register_then_verify (L := laws) carol two_users_world
              (snd (register carol two_users_world)) {| token := carol_token |} _).
    vm_compute. reflexivity.
Defined.

(** C1 as stated fails: Alice registers, then moves to another address with
    [updateProfile]; her account exists, her token is unexpired, and it
    verifies to the new address, not the registered one. *)
Lemma registered_email_not_kept :
  ~ register_token_verifies_to_registered collaborators.
Proof.
  intros H.
  destruct (H alice empty_world registered_world
              (snd (updateProfile alice_moves alice_ctx registered_world))
              {| token := alice_token |}
              (mkUserDoc 1%N "Alice" "alice@x.com" "$2a$10$secret1234" EMPLOYEE))
    as (r & Hv & _ & He & _).
  - vm_compute. reflexivity.
  - reflexivity.
  - vm_compute. reflexivity.
  - vm_compute. reflexivity.
  - vm_compute in Hv. injection Hv as <-. discriminate He.
Qed.

Lemma verifyToken_requires_live_user_witness :
  jwt_verify alice_token JWT_SECRET (clock (set_users [] registered_world))
  = Return {| claim_user := Some (mkAuthUser 1%N "Alice" "a@x.com" EMPLOYEE);
              iat := 1000; exp := 605800 |}
  /\ fst (verifyToken alice_token (set_users [] registered_world)) = Return None.
Proof.
  split.
  - vm_compute. reflexivity.
  - apply (proj2 verifyToken_requires_live_user alice_token
             (set_users [] registered_world)
             {| claim_user := Some (mkAuthUser 1%N "Alice" "a@x.com" EMPLOYEE);
                iat := 1000; exp := 605800 |}
             (mkAuthUser 1%N "Alice" "a@x.com" EMPLOYEE)).
    + vm_compute. reflexivity.
    + reflexivity.
    + simpl. intros doc [].
Defined.

Lemma verifyToken_never_throws_witness :
  exists (r : option AuthUser) (w' : World),
    verifyToken "not.a.token" registered_world = (Return r, w')
    /\ (forall e, jwt_verify "not.a.token" JWT_SECRET (clock registered_world) = Throw e ->
         r = None).
Proof. apply (verifyToken_never_throws "not.a.token" registered_world). Defined.

Lemma verifyToken_returns_stored_fields_witness :
  verifyToken alice_token promoted_world
  = (Return (Some (mkAuthUser 1%N "Alicia" "a@x.com" ADMIN)),
     snd (verifyToken alice_token promoted_world))
  /\ exists p claims doc,
       jwt_verify alice_token JWT_SECRET (clock promoted_world) = Return p
       /\ claim_user p = Some claims
       /\ fst (User_findById (au_id claims) promoted_world) = Return (Some doc)
       /\ 1%N = _id doc /\ "Alicia" = name doc
       /\ "a@x.com" = email doc /\ ADMIN = role doc.
Proof.
  split.
  - vm_compute. reflexivity.
  - apply (verifyToken_returns_stored_fields alice_token promoted_world
             (snd (verifyToken alice_token promoted_world))
             (mkAuthUser 1%N "Alicia" "a@x.com" ADMIN)).
    vm_compute. reflexivity.
Defined.

Lemma verifyToken_swallows_store_failure_witness :
  db_up (unplugged registered_world) = false
  /\ fst (verifyToken alice_token (unplugged registered_world)) = Return None.
Proof.
  split.
  - reflexivity.
  - apply (verifyToken_swallows_store_failure alice_token (unplugged registered_world)).
    reflexivity.
Defined.

(** C8 as stated fails: with the store unreachable the lookup of Alice's id
    throws, and [verifyToken] on her valid token returns [null]. *)
Lemma store_failure_not_propagated : ~ store_failure_propagates collaborators.
Proof.
  intros H.
  specialize (H alice_token (unplugged registered_world)
                {| claim_user := Some (mkAuthUser 1%N "Alice" "a@x.com" EMPLOYEE);
                   iat := 1000; exp := 605800 |}
                (mkAuthUser 1%N "Alice" "a@x.com" EMPLOYEE) store_down).
  vm_compute in H.
  specialize (H eq_refl eq_refl eq_refl). discriminate H.
Qed.

Lemma register_duplicate_email_witness :
  db_up registered_world = true
  /\ In alice_doc (users registered_world)
  /\ email alice_doc = in_email alice2
  /\ exists w' : World,
       register alice2 registered_world
       = (Throw (UserInputError "Email already exists"), w')
       /\ users w' = users registered_world.
Proof.
  split; [reflexivity | split; [left; reflexivity | split; [reflexivity | ]]].
  apply (register_duplicate_email alice2 registered_world alice_doc).
  - reflexivity.
  - left. reflexivity.
  - reflexivity.
Defined.

Lemma login_failures_indistinguishable_witness :
  exists m : string,
    fst (login "nobody@x.com" "secret1234" registered_world) = Throw (UserInputError m)
    /\ fst (login "a@x.com" "wrong-password" registered_world) = Throw (UserInputError m).
Proof.
  apply (login_failures_indistinguishable registered_world registered_world
           "nobody@x.com" "secret1234" "a@x.com" "wrong-password" alice_doc).
  - reflexivity.
  - simpl. intros v [Hv | []]. subst v. discriminate.
  - reflexivity.
  - reflexivity.
  - reflexivity.
Defined.

Lemma changePassword_short_password_outcomes_witness :
  users (snd (changePassword "secret1234" "short" alice_ctx registered_world))
  = users registered_world
  /\ (db_up registered_world = true ->
      forall doc, find (has_id 1%N) (users registered_world) = Some doc ->
      fst (changePassword "secret1234" "short" alice_ctx registered_world)
      = Return {| success := false;
                  message := if bcrypt_compare "secret1234" (password doc)
                             then "New password must be at least 8 characters"
                             else "Current password is incorrect" |})
  /\ (db_up registered_world = true ->
      find (has_id 1%N) (users registered_world) = None ->
      fst (changePassword "secret1234" "short" alice_ctx registered_world)
      = Throw (UserInputError "User not found"))
  /\ (db_up registered_world = false ->
      fst (changePassword "secret1234" "short" alice_ctx registered_world)
      = Throw store_down).
Proof.
  refine (changePassword_short_password_outcomes "secret1234" "short" alice_ctx
            (mkAuthUser 1%N "Alice" "a@x.com" EMPLOYEE) registered_world _ _).
  - reflexivity.
  - simpl. lia.
Defined.

(** C6 as stated fails: for a caller that is authenticated but whose account
    is not in the store, [changePassword] with a short new password throws
    [UserInputError('User not found')]. *)
Lemma short_password_can_throw : ~ short_password_is_soft_failure collaborators.
Proof.
  intros H.
  destruct (H "whatever" "short" ghost_ctx
              (mkAuthUser 9%N "Ghost" "g@x.com" EMPLOYEE) two_users_world
              eq_refl ltac:(simpl; lia)) as (m & Hm & _).
  vm_compute in Hm. discriminate Hm.
Qed.

Lemma context_without_token_witness :
  no_bearer_token (Some "Bearer ") = true
  /\ context (Some "Bearer ") registered_world
     = (Return {| user := None |}, registered_world).
Proof.
  split.
  - reflexivity.
  - apply (context_without_token (Some "Bearer ") registered_world). reflexivity.
Defined.

(** C9 as stated fails: a session authenticated as Alice stays authenticated
    as Alice after [login] with a token that does not decode. *)
Lemma login_failure_keeps_previous_user : ~ login_ends_as_decoded jwtDecode.
Proof.
  intros H.
  destruct (H "not.a.token" alice_session) as [Hfail _].
  destruct (Hfail (InvalidTokenError "Invalid token specified") eq_refl) as [_ Hauth].
  vm_compute in Hauth. discriminate Hauth.
Qed.

(** The second half of C9 as stated fails too: [empty_payload_token]
    decodes, and [login] with it leaves a session that was authenticated as
    Alice anonymous. *)
Lemma login_without_user_ends_anonymous :
  jwtDecode empty_payload_token = Return (Client.mkDecoded None)
  /\ Client.isAuthenticated alice_session = true
  /\ Client.isAuthenticated (Client.login jwtDecode empty_payload_token alice_session)
     = false.
Proof. repeat split; vm_compute; reflexivity. Qed.

Lemma login_decode_outcomes_witness :
  (Client.st_user (Client.login jwtDecode "not.a.token" (Client.initial None)) = None
   /\ Client.isAuthenticated (Client.login jwtDecode "not.a.token" (Client.initial None))
      = false)
  /\ (Client.storage_token (Client.login jwtDecode alice_token (Client.initial None))
      = Some alice_token
      /\ Client.st_user (Client.login jwtDecode alice_token (Client.initial None))
         = Some (Client.mkUser "p" "a@x.com" "Alice" EMPLOYEE)
      /\ Client.isAuthenticated (Client.login jwtDecode alice_token (Client.initial None))
         = true)
  /\ (Client.storage_token (Client.login jwtDecode empty_payload_token alice_session)
      = Some empty_payload_token
      /\ Client.st_user (Client.login jwtDecode empty_payload_token alice_session)
         = None
      /\ Client.isAuthenticated
           (Client.login jwtDecode empty_payload_token alice_session)
         = false).
Proof.
  destruct (login_decode_outcomes jwtDecode "not.a.token" (Client.initial None))
    as (Hfail & _ & _).
  destruct (Hfail (InvalidTokenError "Invalid token specified") eq_refl)
    as (Hu & _ & Ha).
  destruct (login_decode_outcomes jwtDecode alice_token (Client.initial None))
    as (_ & Hok & _).
  destruct (login_decode_outcomes jwtDecode empty_payload_token alice_session)
    as (_ & _ & Hnone).
  split; [split; [exact Hu | exact (Ha eq_refl)] | ].
  split.
  - refine (Hok (Client.mkDecoded (Some (Client.mkUser "p" "a@x.com" "Alice" EMPLOYEE)))
              (Client.mkUser "p" "a@x.com" "Alice" EMPLOYEE) _ _).
    + vm_compute. reflexivity.
    + reflexivity.
  - refine (Hnone (Client.mkDecoded None) _ _).
    + vm_compute. reflexivity.
    + reflexivity.
Defined.

End Scenarios.

(** * Further properties of the resolvers, the context and the provider *)

(** ** Lists of documents *)

Section StoreLemmas.

Lemma replace_doc_In (d' x : UserDoc) (us : list UserDoc) :
  In x (replace_doc d' us) -> In x us \/ x = d'.
Proof.
  induction us as [ | v vs IH]; simpl; [tauto | ].
  destruct (has_id (_id d') v); simpl.
  - intros [H | H]; [right; now symmetry | left; now right].
  - intros [H | H]; [left; now left | ].
    destruct (IH H) as [H' | H']; [left; now right | now right].
Qed.

Lemma find_id_replace_doc (i : ObjectId) (d d' : UserDoc) (us : list UserDoc) :
  find (has_id i) us = Some d -> _id d' = i ->
  find (has_id i) (replace_doc d' us) = Some d'.
Proof.
  intros Hf Hid. subst i. induction us as [ | v vs IH]; simpl in *; [discriminate | ].
  destruct (has_id (_id d') v) eqn:Hv; simpl.
  - unfold has_id. now rewrite N.eqb_refl.
  - rewrite Hv. now apply IH.
Qed.

Lemma find_other_id_replace_doc (j : ObjectId) (d' : UserDoc) (us : list UserDoc) :
  _id d' <> j ->
  find (has_id j) (replace_doc d' us) = find (has_id j) us.
Proof.
  intros Hne. induction us as [ | v vs IH]; simpl; [reflexivity | ].
  destruct (has_id (_id d') v) eqn:Hv; simpl.
  - assert (Hd : has_id j d' = false) by (unfold has_id; now apply N.eqb_neq).
    assert (Hvj : has_id j v = false).
    { unfold has_id in *. apply N.eqb_eq in Hv. apply N.eqb_neq. congruence. }
    now rewrite Hd, Hvj.
  - destruct (has_id j v); [reflexivity | exact IH].
Qed.

Lemma map_replace_doc {A : Type} (f : UserDoc -> A) (d d' : UserDoc)
  (us : list UserDoc) :
  find (has_id (_id d')) us = Some d -> f d' = f d ->
  map f (replace_doc d' us) = map f us.
Proof.
  intros Hf Heq. induction us as [ | v vs IH]; simpl in *; [reflexivity | ].
  destruct (has_id (_id d') v); simpl.
  - injection Hf as Hf. subst v. now rewrite Heq.
  - f_equal. now apply IH.
Qed.

Lemma replace_doc_same (d : UserDoc) (us : list UserDoc) :
  find (has_id (_id d)) us = Some d -> replace_doc d us = us.
Proof.
  induction us as [ | v vs IH]; simpl; [reflexivity | ].
  destruct (has_id (_id d) v).
  - intros H. injection H as H. now subst v.
  - intros H. f_equal. now apply IH.
Qed.

(** The identity read off the document of an id does not see a replacement
    that keeps id, name, email and role. *)
Lemma identity_replace_doc (j : ObjectId) (d d' : UserDoc) (us : list UserDoc) :
  find (has_id (_id d')) us = Some d ->
  identity_of d' = identity_of d ->
  option_map identity_of (find (has_id j) (replace_doc d' us))
  = option_map identity_of (find (has_id j) us).
Proof.
  intros Hf Heq. destruct (N.eq_dec (_id d') j) as [E | E].
  - subst j. rewrite (find_id_replace_doc _ _ _ _ Hf eq_refl), Hf. simpl.
    now rewrite Heq.
  - now rewrite find_other_id_replace_doc.
Qed.

(** The document found under an email is the one found under its id when
    both lookups agree; replacing it keeps it first under that email. *)
Lemma find_email_replace_doc (e : string) (d d' : UserDoc) (us : list UserDoc) :
  find (has_email e) us = Some d ->
  find (has_id (_id d)) us = Some d ->
  _id d' = _id d -> email d' = email d ->
  find (has_email e) (replace_doc d' us) = Some d'.
Proof.
  intros He Hi Hid Hem.
  assert (Hde : has_email e d = true) by (now apply find_some in He).
  assert (Hdi : has_id (_id d) d = true) by (now apply find_some in Hi).
  induction us as [ | v vs IH]; simpl in *; [discriminate | ].
  rewrite Hid.
  destruct (has_id (_id d) v) eqn:Hv, (has_email e v) eqn:Hw.
  - simpl. unfold has_email in *. now rewrite Hem, Hde.
  - injection Hi as Hi. subst v. congruence.
  - injection He as He. subst v. congruence.
  - simpl. rewrite Hw. now apply IH.
Qed.


End StoreLemmas.

(** ** Passwords and logins *)

Section CredentialProps.
Context {C : Collaborators}.

(** [changePassword] for a caller whose id resolves to [doc]. *)
Lemma changePassword_resolved (cur new : string) (ctx : RequestContext)
  (u : AuthUser) (doc : UserDoc) (w : World) :
  user ctx = Some u ->
  db_up w = true ->
  find (has_id (au_id u)) (users w) = Some doc ->
  changePassword cur new ctx w =
  let w1 := log (EvFindById (au_id u)) w in
  if negb (bcrypt_compare cur (password doc)) then
    (Return {| success := false; message := "Current password is incorrect" |}, w1)
  else if (String.length new <? 8)%nat then
    (Return {| success := false;
               message := "New password must be at least 8 characters" |}, w1)
  else if negb (schema_validate (mkUserDoc (_id doc) (name doc) (email doc) new
                                           (role doc))) then
    (Throw (ValidationError "User validation failed"), w1)
  else
    (Return {| success := true; message := "Password changed successfully" |},
     log (EvUpdate (_id doc))
         (set_users (replace_doc (with_digest_of new doc) (users w)) w1)).
Proof.
  intros Hu Hup Hf.
  unfold changePassword, bind, User_findById, comparePassword, ret, save.
  rewrite Hu, Hup, Hf.
  destruct (bcrypt_compare cur (password doc)); cbn [negb]; [ | reflexivity].
  destruct (String.length new <? 8)%nat; [reflexivity | ].
  cbn [db_up log set_password fields isNew passwordModified
       _id name email password role users].
  rewrite Hup. cbn [negb].
  destruct (schema_validate _); reflexivity.
Qed.

(** Whatever [changePassword] answers, the collection is what it was or has
    the caller's document replaced by one that differs in its digest only. *)
Lemma changePassword_world (cur new : string) (ctx : RequestContext) (w : World) :
  db_up (snd (changePassword cur new ctx w)) = db_up w
  /\ clock (snd (changePassword cur new ctx w)) = clock w
  /\ (users (snd (changePassword cur new ctx w)) = users w
      \/ exists u doc,
           user ctx = Some u
           /\ find (has_id (au_id u)) (users w) = Some doc
           /\ users (snd (changePassword cur new ctx w))
              = replace_doc (with_digest_of new doc) (users w)).
Proof.
  destruct (user ctx) as [u | ] eqn:Hu;
    [ | unfold changePassword; rewrite Hu; simpl; tauto].
  destruct (db_up w) eqn:Hup;
    [ | unfold changePassword, bind, User_findById; rewrite Hu, Hup; simpl; tauto].
  destruct (find (has_id (au_id u)) (users w)) as [doc | ] eqn:Hf;
    [ | unfold changePassword, bind, User_findById; rewrite Hu, Hup, Hf; simpl; tauto].
  rewrite (changePassword_resolved cur new ctx u doc w Hu Hup Hf). cbv zeta.
  destruct (negb (bcrypt_compare cur (password doc))); [simpl; tauto | ].
  destruct (String.length new <? 8)%nat; [simpl; tauto | ].
  destruct (negb (schema_validate _)); [simpl; tauto | ].
  simpl. split; [exact Hup | split; [reflexivity | ]].
  right. exists u, doc. now repeat split.
Qed.

(** X1: with the right current password and a new one of 8 characters or
    more that the schema accepts, [changePassword] answers success; the
    caller's document then holds the digest of the new password and the id,
    name, email and role it had, and no other document has changed. *)
Theorem changePassword_success (cur new : string) (ctx : RequestContext)
  (u : AuthUser) (doc : UserDoc) (w : World) :
  user ctx = Some u ->
  db_up w = true ->
  find (has_id (au_id u)) (users w) = Some doc ->
  bcrypt_compare cur (password doc) = true ->
  (8 <= String.length new)%nat ->
  schema_validate (mkUserDoc (_id doc) (name doc) (email doc) new (role doc)) = true ->
  exists w' : World,
    changePassword cur new ctx w
    = (Return {| success := true; message := "Password changed successfully" |}, w')
    /\ find (has_id (au_id u)) (users w')
       = Some (mkUserDoc (_id doc) (name doc) (email doc) (bcrypt_hash new) (role doc))
    /\ (forall j, j <> au_id u ->
          find (has_id j) (users w') = find (has_id j) (users w))
    /\ List.length (users w') = List.length (users w).
Proof.
  intros Hu Hup Hf Hcur Hlen Hok.
  rewrite (changePassword_resolved cur new ctx u doc w Hu Hup Hf). cbv zeta.
  rewrite Hcur, Hok. cbn [negb].
  destruct (Nat.ltb_spec (String.length new) 8) as [Hlt | _]; [lia | ].
  eexists. split; [reflexivity | ].
  cbn [users log set_users].
  destruct (find_has_id_Some _ _ _ Hf) as [_ Hid].
  split; [ | split].
  - now apply (find_id_replace_doc _ doc).
  - intros j Hj. apply find_other_id_replace_doc.
    unfold with_digest_of. cbn [_id]. congruence.
  - rewrite <- (length_map _id), <- (length_map _id (users w)). f_equal.
    apply (map_replace_doc _id doc); [ | reflexivity].
    unfold with_digest_of. cbn [_id]. now rewrite Hid.
Qed.

(** X2: [changePassword] revokes nothing: whatever it answers, every token
    verifies afterwards to what it verified to before. *)
Theorem changePassword_keeps_tokens (cur new : string) (ctx : RequestContext)
  (w : World) (token : string) :
  fst (verifyToken token (snd (changePassword cur new ctx w)))
  = fst (verifyToken token w).
Proof.
  destruct (changePassword_world cur new ctx w) as (Hup & Hclk & Hus).
  rewrite !verifyToken_unfold. cbv zeta. rewrite Hup, Hclk.
  destruct (jwt_verify token JWT_SECRET (clock w)) as [p | e]; [ | reflexivity].
  destruct (claim_user p) as [claims | ]; [ | reflexivity].
  cbn [fst]. destruct (db_up w); [ | reflexivity]. apply f_equal.
  destruct Hus as [Hus | (u & doc & _ & Hf & Hus)]; rewrite Hus; [reflexivity | ].
  destruct (find_has_id_Some _ _ _ Hf) as [_ Hid].
  apply (identity_replace_doc _ doc).
  - unfold with_digest_of. cbn [_id]. now rewrite Hid.
  - reflexivity.
Qed.

(** X3: when the current password does not match, [changePassword] answers
    'Current password is incorrect' whatever the new password is, short or
    not, and the collection is what it was. *)
Theorem changePassword_wrong_current (cur new : string) (ctx : RequestContext)
  (u : AuthUser) (doc : UserDoc) (w : World) :
  user ctx = Some u ->
  db_up w = true ->
  find (has_id (au_id u)) (users w) = Some doc ->
  bcrypt_compare cur (password doc) = false ->
  exists w' : World,
    changePassword cur new ctx w
    = (Return {| success := false; message := "Current password is incorrect" |}, w')
    /\ users w' = users w.
Proof.
  intros Hu Hup Hf Hbad.
  rewrite (changePassword_resolved cur new ctx u doc w Hu Hup Hf). cbv zeta.
  rewrite Hbad. eexists. split; reflexivity.
Qed.

(** X4: after a successful [changePassword], a login with the user's email
    and the new password returns a token, and one with the old password,
    when it does not match the new digest, is refused. *)
Theorem login_after_changePassword {B : BcryptLaws C}
  (cur new : string) (ctx : RequestContext)
  (u : AuthUser) (doc : UserDoc) (w w' : World) :
  user ctx = Some u ->
  find (has_id (au_id u)) (users w) = Some doc ->
  find (has_email (email doc)) (users w) = Some doc ->
  changePassword cur new ctx w
  = (Return {| success := true; message := "Password changed successfully" |}, w') ->
  (exists ap, fst (login (email doc) new w') = Return ap)
  /\ (bcrypt_compare cur (bcrypt_hash new) = false ->
      fst (login (email doc) cur w')
      = Throw (UserInputError "Invalid email or password")).
Proof.
  intros Hu Hf He Hres.
  destruct (db_up w) eqn:Hup;
    [ | unfold changePassword, bind, User_findById in Hres;
        rewrite Hu, Hup in Hres; discriminate Hres].
  rewrite (changePassword_resolved cur new ctx u doc w Hu Hup Hf) in Hres.
  cbv zeta in Hres.
  destruct (negb (bcrypt_compare cur (password doc))); [discriminate Hres | ].
  destruct (String.length new <? 8)%nat; [discriminate Hres | ].
  destruct (negb (schema_validate _)); [discriminate Hres | ].
  injection Hres as Hw'. subst w'.
  destruct (find_has_id_Some _ _ _ Hf) as [_ Hid].
  assert (Hfound : find (has_email (email doc))
                     (replace_doc (with_digest_of new doc) (users w))
                   = Some (with_digest_of new doc)).
  { apply (find_email_replace_doc _ doc); try reflexivity; try assumption.
    now rewrite Hid. }
  unfold login, bind, User_findOne, comparePassword, ret, throw, token_for,
    jwt_sign_now.
  cbn [db_up users log set_users]. rewrite Hup, Hfound.
  cbn [with_digest_of password].
  split.
  - rewrite compare_hash. cbn [negb fst]. eexists. reflexivity.
  - intros Hold. rewrite Hold. reflexivity.
Qed.


(** X6: a login returns a token only for a stored user with that email whose
    digest matches the password; it writes nothing, and until the token
    expires it verifies to whatever the store then holds under that user's
    id. *)
Theorem login_token_verifies {L : JwtLaws C}
  (e p : string) (w w' : World) (ap : AuthPayload) :
  login e p w = (Return ap, w') ->
  exists doc : UserDoc,
    find (has_email e) (users w) = Some doc
    /\ bcrypt_compare p (password doc) = true
    /\ users w' = users w
    /\ (forall (w2 : World) (doc2 : UserDoc),
          db_up w2 = true ->
          (clock w2 < clock w + seven_days)%Z ->
          find (has_id (_id doc)) (users w2) = Some doc2 ->
          fst (verifyToken (token ap) w2) = Return (Some (identity_of doc2))).
Proof.
  unfold login, bind, User_findOne, comparePassword, ret, throw, token_for,
    jwt_sign_now.
  destruct (db_up w); [ | discriminate].
  destruct (find (has_email e) (users w)) as [doc | ]; [ | discriminate].
  destruct (bcrypt_compare p (password doc)) eqn:Hp; cbn [negb]; [ | discriminate].
  intros H. injection H as Hap Hw. subst ap w'.
  exists doc. split; [reflexivity | split; [exact Hp | split; [reflexivity | ]]].
  intros w2 doc2 Hup2 Hlive Hf2.
  rewrite verifyToken_unfold. cbv zeta. cbn [token clock log].
  rewrite (jwt_verify_sign _ _ _ _ _ Hlive).
  cbn [claim_user au_id fst]. now rewrite Hup2, Hf2.
Qed.

Lemma NoDup_map_app_new {A : Type} (f : UserDoc -> A) (us : list UserDoc)
  (u : UserDoc) :
  NoDup (map f us) -> ~ In (f u) (map f us) -> NoDup (map f (us ++ [u])).
Proof.
  intros Hnd Hnew. rewrite map_app. simpl.
  induction (map f us) as [ | a l IH]; simpl.
  - constructor; [tauto | constructor].
  - inversion Hnd as [ | ? ? Ha Hl]; subst. constructor.
    + rewrite in_app_iff. simpl. intros [Hin | [Heq | []]]; [now apply Ha | ].
      apply Hnew. now left.
    + apply IH; [exact Hl | ]. intros Hin. apply Hnew. now right.
Qed.

Lemma existsb_dup_false (u : UserDoc) (us : list UserDoc) :
  existsb (fun v => has_id (_id u) v || has_email (email u) v) us = false ->
  ~ In (_id u) (map _id us) /\ ~ In (email u) (map email us).
Proof.
  induction us as [ | v vs IH]; simpl; [tauto | ].
  intros H. apply orb_false_elim in H. destruct H as [Hv Hvs].
  apply orb_false_elim in Hv. destruct Hv as [Hid Hem].
  destruct (IH Hvs) as [IHi IHe].
  unfold has_id in Hid. unfold has_email in Hem.
  apply N.eqb_neq in Hid. apply String.eqb_neq in Hem.
  split; intros [Heq | Hin]; auto.
Qed.

(** Whatever [register] answers, the collection is what it was or has the
    new document appended, which shares no id and no email with the rest. *)
Lemma register_users (input : RegisterInput) (w : World) :
  users (snd (register input w)) = users w
  \/ (existsb (fun v => has_id (_id (registered_doc input w)) v
                        || has_email (email (registered_doc input w)) v)
              (users w) = false
      /\ users (snd (register input w))
         = (users w ++ [registered_doc input w])%list).
Proof.
  unfold register, bind, User_findOne, new_User, save, token_for, jwt_sign_now,
    throw, ret.
  destruct (db_up w) eqn:Hup; [ | now left].
  destruct (find (has_email (in_email input)) (users w)); [now left | ].
  cbn [db_up users log fields isNew passwordModified _id name email password role
       next_oid clock set_users].
  rewrite Hup. cbn [negb].
  destruct (schema_validate _); cbn [negb]; [ | now left].
  change (mkUserDoc (next_oid w) (in_name input) (in_email input)
            (bcrypt_hash (in_password input)) (role_or_default (in_role input)))
    with (registered_doc input w).
  destruct (existsb _ (users w)) eqn:Hdup; [now left | ].
  right. split; reflexivity.
Qed.

(** X7: [register] keeps the store well formed: if no two documents shared
    an id or an email before the call, none do after it, whatever it
    answered. *)
Theorem register_keeps_store_ok (input : RegisterInput) (w : World) :
  store_ok (users w) ->
  store_ok (users (snd (register input w))).
Proof.
  intros [Hids Hems].
  destruct (register_users input w) as [Hsame | [Hdup Happ]].
  - rewrite Hsame. now split.
  - rewrite Happ. apply existsb_dup_false in Hdup. destruct Hdup as [Hi He].
    split; now apply NoDup_map_app_new.
Qed.

(** X8: [changePassword] keeps the store well formed, and leaves the ids and
    the emails of the collection, in order, exactly as they were. *)
Theorem changePassword_keeps_store_ok (cur new : string) (ctx : RequestContext)
  (w : World) :
  map _id (users (snd (changePassword cur new ctx w))) = map _id (users w)
  /\ map email (users (snd (changePassword cur new ctx w))) = map email (users w)
  /\ (store_ok (users w) -> store_ok (users (snd (changePassword cur new ctx w)))).
Proof.
  destruct (changePassword_world cur new ctx w) as (_ & _ & Hus).
  assert (H : map _id (users (snd (changePassword cur new ctx w))) = map _id (users w)
              /\ map email (users (snd (changePassword cur new ctx w)))
                 = map email (users w)).
  { destruct Hus as [Hus | (u & doc & _ & Hf & Hus)]; rewrite Hus; [now split | ].
    destruct (find_has_id_Some _ _ _ Hf) as [_ Hid].
    split; apply (map_replace_doc _ doc); try reflexivity;
      unfold with_digest_of; cbn [_id]; now rewrite Hid. }
  destruct H as [Hi He]. split; [exact Hi | split; [exact He | ]].
  unfold store_ok. rewrite Hi, He. tauto.
Qed.

End CredentialProps.

(** ** [me] and [updateProfile] *)

Section ProfileProps.
Context {C : Collaborators} {T : Timestamps}.

(** The whole of [updateProfile] for an authenticated caller while the store
    answers. *)
Lemma updateProfile_run (input : UpdateProfileInput) (ctx : RequestContext)
  (u : AuthUser) (w : World) :
  user ctx = Some u ->
  db_up w = true ->
  updateProfile input ctx w =
  let oe := or_undefined (up_email input) in
  let w1 := match oe with Some e => log (EvFindOne e) w | None => w end in
  match match oe with
        | Some e => find (has_email_not_id e (au_id u)) (users w)
        | None => None
        end with
  | Some _ => (Throw (UserInputError "Email already exists"), w1)
  | None =>
      let w2 := log (EvUpdate (au_id u)) w1 in
      match find (has_id (au_id u)) (users w) with
      | None => (Throw (UserInputError "User not found"), w2)
      | Some d =>
          let d' := apply_update (or_undefined (up_name input)) oe d in
          let w3 := set_users (replace_doc d' (users w)) w2 in
          (Return {| v_id := _id d'; v_name := name d'; v_email := email d';
                     v_role := role d';
                     v_createdAt := createdAt_ISO w3 d';
                     v_updatedAt := updatedAt_ISO w3 d' |}, w3)
      end
  end.
Proof.
  intros Hu Hup.
  unfold updateProfile, bind, User_findOne_other, User_findByIdAndUpdate, view_of,
    throw, ret.
  rewrite Hu. cbv zeta.
  destruct (up_email input) as [e | ]; cbn [or_undefined].
  - destruct (truthy e).
    + rewrite Hup.
      destruct (find (has_email_not_id e (au_id u)) (users w)); [reflexivity | ].
      cbn [db_up users log]. rewrite Hup.
      destruct (find (has_id (au_id u)) (users w)); reflexivity.
    + rewrite Hup. destruct (find (has_id (au_id u)) (users w)); reflexivity.
  - rewrite Hup. destruct (find (has_id (au_id u)) (users w)); reflexivity.
Qed.

Lemma find_other_None (e : string) (i : ObjectId) (us : list UserDoc) :
  (forall v, In v us -> email v = e -> _id v = i) ->
  find (has_email_not_id e i) us = None.
Proof.
  intros H. destruct (find (has_email_not_id e i) us) as [v | ] eqn:E; [ | reflexivity].
  apply find_some in E. destruct E as [Hin Hv].
  unfold has_email_not_id, has_email, has_id in Hv.
  apply andb_true_iff in Hv. destruct Hv as [He Hi].
  apply String.eqb_eq in He. apply negb_true_iff, N.eqb_neq in Hi.
  now apply H in Hin.
Qed.

Lemma find_other_None_inv (e : string) (i : ObjectId) (us : list UserDoc) :
  find (has_email_not_id e i) us = None ->
  forall v, In v us -> email v = e -> _id v = i.
Proof.
  intros H v Hin He. apply (find_none _ _ H) in Hin.
  unfold has_email_not_id, has_email, has_id in Hin.
  rewrite He, String.eqb_refl in Hin. simpl in Hin.
  apply negb_false_iff in Hin. now apply N.eqb_eq.
Qed.

(** X9: when another user already has the requested email, [updateProfile]
    throws [UserInputError('Email already exists')] and the collection is
    what it was. *)
Theorem updateProfile_email_taken (input : UpdateProfileInput)
  (ctx : RequestContext) (u : AuthUser) (e : string) (v : UserDoc) (w : World) :
  user ctx = Some u ->
  db_up w = true ->
  up_email input = Some e ->
  e <> EmptyString ->
  In v (users w) -> email v = e -> _id v <> au_id u ->
  exists w' : World,
    updateProfile input ctx w
    = (Throw (UserInputError "Email already exists"), w')
    /\ users w' = users w.
Proof.
  intros Hu Hup He Hne Hin Hev Hid.
  rewrite (updateProfile_run input ctx u w Hu Hup). cbv zeta.
  rewrite He. cbn [or_undefined]. unfold truthy.
  apply String.eqb_neq in Hne. rewrite Hne. cbn [negb].
  destruct (find (has_email_not_id e (au_id u)) (users w)) as [x | ] eqn:E.
  - eexists. split; reflexivity.
  - exfalso. apply Hid. now apply (find_other_None_inv _ _ _ E v).
Qed.

(** X10: for a caller whose id resolves and whose requested email, if any,
    no other user has, [updateProfile] returns the updated profile: the name
    and email are the ones given where given and not empty and the stored
    ones otherwise, id and role are the stored ones, the digest is untouched,
    the store holds that document under the id, and no other document has
    changed. *)
Theorem updateProfile_success (input : UpdateProfileInput) (ctx : RequestContext)
  (u : AuthUser) (doc : UserDoc) (w : World) :
  user ctx = Some u ->
  db_up w = true ->
  find (has_id (au_id u)) (users w) = Some doc ->
  (forall e, or_undefined (up_email input) = Some e ->
     forall v, In v (users w) -> email v = e -> _id v = au_id u) ->
  exists (view : UserView) (w' : World),
    updateProfile input ctx w = (Return view, w')
    /\ v_id view = _id doc
    /\ v_name view = match or_undefined (up_name input) with
                     | Some n => n
                     | None => name doc
                     end
    /\ v_email view = match or_undefined (up_email input) with
                      | Some e => e
                      | None => email doc
                      end
    /\ v_role view = role doc
    /\ find (has_id (au_id u)) (users w')
       = Some (mkUserDoc (v_id view) (v_name view) (v_email view)
                         (password doc) (v_role view))
    /\ (forall j, j <> au_id u ->
          find (has_id j) (users w') = find (has_id j) (users w)).
Proof.
  intros Hu Hup Hf Hfree.
  rewrite (updateProfile_run input ctx u w Hu Hup). cbv zeta.
  assert (Hnone : match or_undefined (up_email input) with
                  | Some e => find (has_email_not_id e (au_id u)) (users w)
                  | None => None
                  end = None).
  { destruct (or_undefined (up_email input)) as [e | ]; [ | reflexivity].
    apply find_other_None. now apply Hfree. }
  rewrite Hnone, Hf.
  destruct (find_has_id_Some _ _ _ Hf) as [_ Hid].
  eexists. eexists. split; [reflexivity | ].
  cbn [v_id v_name v_email v_role apply_update _id name email role users set_users].
  repeat (split; [reflexivity | ]).
  split.
  - now apply (find_id_replace_doc _ doc).
  - intros j Hj. apply find_other_id_replace_doc. unfold apply_update. cbn [_id].
    intros E. apply Hj. now rewrite <- E, Hid.
Qed.

(** X11: an [updateProfile] whose name and email are absent or empty changes
    nothing: it returns the stored profile and the collection is what it
    was. *)
Theorem updateProfile_blank_keeps_profile (input : UpdateProfileInput)
  (ctx : RequestContext) (u : AuthUser) (doc : UserDoc) (w : World) :
  user ctx = Some u ->
  db_up w = true ->
  find (has_id (au_id u)) (users w) = Some doc ->
  (up_name input = None \/ up_name input = Some EmptyString) ->
  (up_email input = None \/ up_email input = Some EmptyString) ->
  exists (view : UserView) (w' : World),
    updateProfile input ctx w = (Return view, w')
    /\ v_id view = _id doc /\ v_name view = name doc
    /\ v_email view = email doc /\ v_role view = role doc
    /\ users w' = users w.
Proof.
  intros Hu Hup Hf Hn He.
  rewrite (updateProfile_run input ctx u w Hu Hup). cbv zeta.
  assert (Hon : or_undefined (up_name input) = None)
    by (destruct Hn as [Hn | Hn]; now rewrite Hn).
  assert (Hoe : or_undefined (up_email input) = None)
    by (destruct He as [He | He]; now rewrite He).
  rewrite Hon, Hoe, Hf.
  eexists. eexists. split; [reflexivity | ].
  cbn [v_id v_name v_email v_role apply_update _id name email role users set_users log].
  repeat (split; [reflexivity | ]).
  apply replace_doc_same.
  destruct (find_has_id_Some _ _ _ Hf) as [_ Hid].
  destruct doc as [i n e p r]. cbn [_id name email password role] in *.
  subst i. exact Hf.
Qed.

(** Whatever [updateProfile] answers, the store's reachability and clock are
    what they were, and the collection is what it was or has the caller's
    document replaced by its update, whose email no other document has. *)
Lemma updateProfile_world (input : UpdateProfileInput) (ctx : RequestContext)
  (w : World) :
  db_up (snd (updateProfile input ctx w)) = db_up w
  /\ clock (snd (updateProfile input ctx w)) = clock w
  /\ (users (snd (updateProfile input ctx w)) = users w
      \/ exists u doc,
           user ctx = Some u
           /\ find (has_id (au_id u)) (users w) = Some doc
           /\ (forall e, or_undefined (up_email input) = Some e ->
                 find (has_email_not_id e (au_id u)) (users w) = None)
           /\ users (snd (updateProfile input ctx w))
              = replace_doc (apply_update (or_undefined (up_name input))
                                          (or_undefined (up_email input)) doc)
                            (users w)).
Proof.
  destruct (user ctx) as [u | ] eqn:Hu;
    [ | unfold updateProfile; rewrite Hu; simpl; tauto].
  destruct (db_up w) eqn:Hup.
  - rewrite (updateProfile_run input ctx u w Hu Hup). cbv zeta.
    destruct (or_undefined (up_email input)) as [e | ] eqn:Hoe.
    + destruct (find (has_email_not_id e (au_id u)) (users w)) eqn:Hother;
        [simpl; tauto | ].
      destruct (find (has_id (au_id u)) (users w)) as [doc | ] eqn:Hf;
        [ | simpl; tauto].
      simpl. split; [exact Hup | split; [reflexivity | ]].
      right. exists u, doc.
      split; [reflexivity | split; [exact Hf | split; [ | reflexivity]]].
      intros e' He'. injection He' as <-. exact Hother.
    + destruct (find (has_id (au_id u)) (users w)) as [doc | ] eqn:Hf;
        [ | simpl; tauto].
      simpl. split; [exact Hup | split; [reflexivity | ]].
      right. exists u, doc.
      split; [reflexivity | split; [exact Hf | split; [ | reflexivity]]].
      intros e' He'. discriminate He'.
  - unfold updateProfile, bind, User_findOne_other, User_findByIdAndUpdate, ret.
    rewrite Hu.
    destruct (up_email input) as [e | ]; [destruct (truthy e) | ];
      rewrite ?Hup; simpl; rewrite ?Hup; simpl; tauto.
Qed.

Lemma NoDup_email_replace (i : ObjectId) (e : string) (d d' : UserDoc)
  (us : list UserDoc) :
  NoDup (map _id us) -> NoDup (map email us) ->
  find (has_id i) us = Some d ->
  find (has_email_not_id e i) us = None ->
  _id d' = i -> email d' = e ->
  NoDup (map email (replace_doc d' us)).
Proof.
  intros Hids Hems Hf Hother Hid He. subst i.
  pose proof (find_other_None_inv _ _ _ Hother) as Hown. clear Hother.
  induction us as [ | v vs IH]; simpl in *; [constructor | ].
  inversion Hids as [ | ? ? Hvi Hvsi]; subst.
  inversion Hems as [ | ? ? Hve Hvse]; subst.
  destruct (has_id (_id d') v) eqn:Hv; simpl.
  - constructor; [ | exact Hvse].
    intros Hin. apply in_map_iff in Hin. destruct Hin as (x & Hxe & Hx).
    apply Hvi. apply in_map_iff. exists x. split; [ | exact Hx].
    unfold has_id in Hv. apply N.eqb_eq in Hv. rewrite Hv.
    apply Hown; [now right | now rewrite Hxe].
  - constructor.
    + intros Hin. apply in_map_iff in Hin. destruct Hin as (x & Hxe & Hx).
      destruct (replace_doc_In _ _ _ Hx) as [Hx' | Hx'].
      * apply Hve. apply in_map_iff. now exists x.
      * subst x. unfold has_id in Hv. apply N.eqb_neq in Hv. apply Hv.
        apply Hown; [now left | now symmetry].
    + apply IH; try assumption. intros x Hx. apply Hown. now right.
Qed.

(** X12: [updateProfile] keeps the store well formed: if no two documents
    shared an id or an email before the call, none do after it, whatever it
    answered. *)
Theorem updateProfile_keeps_store_ok (input : UpdateProfileInput)
  (ctx : RequestContext) (w : World) :
  store_ok (users w) ->
  store_ok (users (snd (updateProfile input ctx w))).
Proof.
  intros [Hids Hems].
  destruct (updateProfile_world input ctx w)
    as (_ & _ & [Hsame | (u & doc & _ & Hf & Hfree & Hus)]).
  - rewrite Hsame. now split.
  - rewrite Hus. destruct (find_has_id_Some _ _ _ Hf) as [_ Hid]. split.
    + rewrite (map_replace_doc _id doc); [exact Hids | | reflexivity].
      cbn [apply_update _id]. now rewrite Hid.
    + destruct (or_undefined (up_email input)) as [e | ] eqn:Hoe.
      * apply (NoDup_email_replace (au_id u) e doc); try assumption; try reflexivity.
        now apply Hfree.
      * rewrite (map_replace_doc email doc); [exact Hems | | reflexivity].
        cbn [apply_update _id]. now rewrite Hid.
Qed.

(** What an authenticated context tells about the world it was built in. *)
Lemma context_authenticated (authorization : option string)
  (w w1 : World) (ctx : RequestContext) (u : AuthUser) :
  context authorization w = (Return ctx, w1) ->
  user ctx = Some u ->
  db_up w1 = true /\ users w1 = users w /\ clock w1 = clock w
  /\ exists doc, find (has_id (au_id u)) (users w1) = Some doc /\ u = identity_of doc.
Proof.
  intros Hctx Hu. rewrite context_unfold in Hctx. cbv zeta in Hctx.
  destruct (truthy _); [ | injection Hctx as Hc _; subst ctx; discriminate Hu].
  destruct (verifyToken _ w) as [[r | e] w1'] eqn:Hv; [ | discriminate Hctx].
  injection Hctx as Hc Hw1. subst ctx w1'. cbn [user] in Hu. subst r.
  destruct (verifyToken_Some _ _ _ _ Hv)
    as (p & claims & doc & _ & _ & Hup & Hf & Hr & Hw1).
  destruct (find_has_id_Some _ _ _ Hf) as [_ Hid].
  subst w1. cbn [db_up users clock log].
  split; [exact Hup | split; [reflexivity | split; [reflexivity | ]]].
  exists doc. split; [ | exact Hr]. subst u. cbn [identity_of au_id]. now rewrite Hid.
Qed.

(** X13: in a request the [context] function authenticated, [me] returns the
    id, name, email and role the context resolved, and writes nothing. *)
Theorem me_after_context (authorization : option string)
  (w w1 : World) (ctx : RequestContext) (u : AuthUser) :
  context authorization w = (Return ctx, w1) ->
  user ctx = Some u ->
  exists (view : UserView) (w2 : World),
    me ctx w1 = (Return view, w2)
    /\ v_id view = au_id u /\ v_name view = au_name u
    /\ v_email view = au_email u /\ v_role view = au_role u
    /\ users w2 = users w.
Proof.
  intros Hctx Hu.
  destruct (context_authenticated _ _ _ _ _ Hctx Hu)
    as (Hup & Hus & _ & doc & Hf & Hid).
  unfold me, bind, User_findById, view_of. rewrite Hu, Hup, Hf.
  eexists. eexists. split; [reflexivity | ].
  subst u. cbn [v_id v_name v_email v_role identity_of au_id au_name au_email au_role
                users log].
  now repeat split.
Qed.

(** X14: after an [updateProfile] that returned, a token that verified to
    the caller before verifies to the updated profile: the verifier reads
    the store, not the token. *)
Theorem updateProfile_then_verify (input : UpdateProfileInput)
  (ctx : RequestContext) (u r : AuthUser) (token : string)
  (w w0 w' : World) (view : UserView) :
  user ctx = Some u ->
  verifyToken token w = (Return (Some r), w0) ->
  au_id r = au_id u ->
  updateProfile input ctx w = (Return view, w') ->
  fst (verifyToken token w')
  = Return (Some {| au_id := v_id view; au_name := v_name view;
                    au_email := v_email view; au_role := v_role view |}).
Proof.
  intros Hu Hv Hsame Hres.
  destruct (verifyToken_Some _ _ _ _ Hv)
    as (p & claims & doc0 & Hjwt & Hc & Hup & Hf0 & Hr & _).
  destruct (find_has_id_Some _ _ _ Hf0) as [_ Hid0].
  assert (Hcl : au_id claims = au_id u).
  { rewrite <- Hsame, Hr. cbn [identity_of au_id]. now symmetry. }
  rewrite Hcl in Hf0.
  rewrite (updateProfile_run input ctx u w Hu Hup) in Hres. cbv zeta in Hres.
  destruct (match or_undefined (up_email input) with
            | Some e => find (has_email_not_id e (au_id u)) (users w)
            | None => None
            end); [discriminate Hres | ].
  rewrite Hf0 in Hres. injection Hres as Hview Hw'. subst view w'.
  rewrite verifyToken_unfold. cbv zeta.
  assert (Hclk : forall o : option string,
             clock (match o with Some e => log (EvFindOne e) w | None => w end)
             = clock w) by (intros [e | ]; reflexivity).
  assert (Hdb : forall o : option string,
             db_up (match o with Some e => log (EvFindOne e) w | None => w end)
             = db_up w) by (intros [e | ]; reflexivity).
  cbn [clock db_up users log set_users]. rewrite Hclk, Hdb, Hjwt, Hc, Hup, Hcl.
  rewrite (find_id_replace_doc (au_id u) doc0); [reflexivity | exact Hf0 | ].
  cbn [apply_update _id]. now rewrite Hid0.
Qed.

(** X15: when the caller's account is gone from the collection, [me] throws
    [AuthenticationError('User not found')], while [changePassword] and an
    [updateProfile] whose email is free throw [UserInputError('User not
    found')]. *)
Theorem resolvers_on_vanished_account (cur new : string)
  (input : UpdateProfileInput) (ctx : RequestContext) (u : AuthUser) (w : World) :
  user ctx = Some u ->
  db_up w = true ->
  (forall doc, In doc (users w) -> _id doc <> au_id u) ->
  (forall e, or_undefined (up_email input) = Some e ->
     forall v, In v (users w) -> email v <> e) ->
  fst (me ctx w) = Throw (AuthenticationError "User not found")
  /\ fst (changePassword cur new ctx w) = Throw (UserInputError "User not found")
  /\ fst (updateProfile input ctx w) = Throw (UserInputError "User not found")
  /\ users (snd (updateProfile input ctx w)) = users w.
Proof.
  intros Hu Hup Hgone Hfree.
  pose proof (find_has_id_None _ _ Hgone) as Hf.
  split; [ | split].
  - unfold me, bind, User_findById. now rewrite Hu, Hup, Hf.
  - unfold changePassword, bind, User_findById. now rewrite Hu, Hup, Hf.
  - rewrite (updateProfile_run input ctx u w Hu Hup). cbv zeta. rewrite Hf.
    destruct (or_undefined (up_email input)) as [e | ] eqn:Hoe.
    + rewrite find_other_None; [split; reflexivity | ].
      intros v Hin He. now apply (Hfree e eq_refl v) in Hin.
    + split; reflexivity.
Qed.

(** X16: the resolvers do not swallow a failure of the store: when it does
    not answer, [register], [login] and, for an authenticated caller, [me],
    [changePassword] and [updateProfile] throw the store's error. *)
Theorem resolvers_propagate_store_failure (input : RegisterInput)
  (e p cur new : string) (upd : UpdateProfileInput)
  (ctx : RequestContext) (u : AuthUser) (w : World) :
  db_up w = false ->
  user ctx = Some u ->
  fst (register input w) = Throw store_down
  /\ fst (login e p w) = Throw store_down
  /\ fst (me ctx w) = Throw store_down
  /\ fst (changePassword cur new ctx w) = Throw store_down
  /\ fst (updateProfile upd ctx w) = Throw store_down.
Proof.
  intros Hdown Hu. repeat split.
  - unfold register, bind, User_findOne. now rewrite Hdown.
  - unfold login, bind, User_findOne. now rewrite Hdown.
  - unfold me, bind, User_findById. now rewrite Hu, Hdown.
  - unfold changePassword, bind, User_findById. now rewrite Hu, Hdown.
  - unfold updateProfile, bind, User_findOne_other, User_findByIdAndUpdate, ret.
    rewrite Hu.
    destruct (up_email upd) as [x | ]; [destruct (truthy x) | ];
      rewrite ?Hdown; simpl; rewrite ?Hdown; reflexivity.
Qed.

(** X17: [login] and [me] never write: whatever they answer, the collection
    and the id generator are what they were. *)
Theorem login_and_me_never_write (e p : string) (ctx : RequestContext) (w : World) :
  users (snd (login e p w)) = users w
  /\ next_oid (snd (login e p w)) = next_oid w
  /\ users (snd (me ctx w)) = users w
  /\ next_oid (snd (me ctx w)) = next_oid w.
Proof.
  assert (Hlogin : users (snd (login e p w)) = users w
                   /\ next_oid (snd (login e p w)) = next_oid w).
  { unfold login, bind, User_findOne, comparePassword, ret, throw, token_for,
      jwt_sign_now.
    destruct (db_up w); [ | now split].
    destruct (find (has_email e) (users w)) as [d | ]; [ | now split].
    destruct (bcrypt_compare p (password d)); now split. }
  assert (Hme : users (snd (me ctx w)) = users w
                /\ next_oid (snd (me ctx w)) = next_oid w).
  { unfold me, bind, User_findById, view_of, throw.
    destruct (user ctx) as [u | ]; [ | now split].
    destruct (db_up w); [ | now split].
    destruct (find (has_id (au_id u)) (users w)); now split. }
  tauto.
Qed.

(** *** The [Authorization] header *)

Lemma split_space_first_word (s : string) :
  exists r, split_space s = first_word s :: r.
Proof.
  induction s as [ | c t [r IH]]; simpl.
  - now exists [].
  - destruct (Ascii.eqb c " "); [now exists (split_space t) | ].
    rewrite IH. now exists r.
Qed.

Lemma split_space_scheme (scheme rest : string) :
  no_space scheme = true ->
  split_space (scheme ++ String " " rest) = scheme :: split_space rest.
Proof.
  induction scheme as [ | c t IH]; simpl; intros H; [reflexivity | ].
  apply andb_true_iff in H. destruct H as [Hc Ht].
  apply negb_true_iff in Hc. rewrite Hc, (IH Ht). reflexivity.
Qed.

(** X18: [context] never throws and never writes, whatever the header. *)
Theorem context_never_throws (authorization : option string) (w : World) :
  exists (ctx : RequestContext) (w' : World),
    context authorization w = (Return ctx, w')
    /\ users w' = users w /\ next_oid w' = next_oid w.
Proof.
  rewrite context_unfold. cbv zeta.
  destruct (truthy _); [ | now eexists; eexists].
  rewrite verifyToken_unfold. cbv zeta.
  destruct (jwt_verify _ JWT_SECRET (clock w)) as [p | e]; [ | now eexists; eexists].
  destruct (claim_user p); now eexists; eexists.
Qed.

(** X19: the scheme of the header is not looked at and what follows the
    token is dropped: for a header made of a scheme without space, a space
    and a rest that does not start with a space, the context's user is what
    [verifyToken] answers on the rest up to its first space. *)
Theorem context_verifies_second_word (scheme rest : string) (w : World) :
  no_space scheme = true ->
  first_word rest <> EmptyString ->
  exists (u : option AuthUser) (w' : World),
    verifyToken (first_word rest) w = (Return u, w')
    /\ context (Some (scheme ++ String " " rest)) w = (Return {| user := u |}, w').
Proof.
  intros Hs Hw. rewrite context_unfold. cbv zeta.
  rewrite (split_space_scheme _ _ Hs).
  destruct (split_space_first_word rest) as [r Hr]. rewrite Hr.
  cbn [nth_error or_empty]. unfold truthy.
  apply String.eqb_neq in Hw. rewrite Hw. cbn [negb].
  rewrite verifyToken_unfold. cbv zeta.
  destruct (jwt_verify _ JWT_SECRET (clock w)) as [p | e]; [ | now eexists; eexists].
  destruct (claim_user p); now eexists; eexists.
Qed.

(** X20: a request whose token [jwt.verify] rejects is refused by [me],
    [changePassword] and [updateProfile] with
    [AuthenticationError('Not authenticated')], and the only call made is the
    one to [jwt.verify]: the store is not consulted. *)
Theorem rejected_token_is_refused (scheme token cur new : string)
  (input : UpdateProfileInput) (e : Error) (w : World) :
  no_space scheme = true ->
  no_space token = true ->
  token <> EmptyString ->
  jwt_verify token JWT_SECRET (clock w) = Throw e ->
  let h := Some (scheme ++ String " " token) in
  serve h me w
  = (Throw (AuthenticationError "Not authenticated"), log (EvJwtVerify token) w)
  /\ serve h (changePassword cur new) w
     = (Throw (AuthenticationError "Not authenticated"), log (EvJwtVerify token) w)
  /\ serve h (updateProfile input) w
     = (Throw (AuthenticationError "Not authenticated"), log (EvJwtVerify token) w).
Proof.
  intros Hs Ht Hne Hrej h.
  assert (Hctx : context h w = (Return {| user := None |}, log (EvJwtVerify token) w)).
  { unfold h. rewrite context_unfold. cbv zeta.
    rewrite (split_space_scheme _ _ Hs).
    destruct (split_space_first_word token) as [r Hr]. rewrite Hr.
    assert (Hfw : first_word token = token).
    { clear -Ht. induction token as [ | c t IH]; simpl in *; [reflexivity | ].
      apply andb_true_iff in Ht. destruct Ht as [Hc Ht'].
      apply negb_true_iff in Hc. rewrite Hc. now rewrite (IH Ht'). }
    rewrite Hfw. cbn [nth_error or_empty]. unfold truthy.
    apply String.eqb_neq in Hne. rewrite Hne. cbn [negb].
    rewrite verifyToken_unfold. cbv zeta. now rewrite Hrej. }
  unfold serve, bind. rewrite Hctx. repeat split.
Qed.

End ProfileProps.

(** ** The provider across restarts *)

Section ProviderProps.
Variable jwtDecode : string -> Outcome Client.Decoded.

(** X21: a process that starts over a storage ends its mount effect not
    loading, and authenticated exactly when the storage holds a non-empty
    token that decodes to a payload carrying a user. *)
Theorem start_authenticated_iff (stored : option string) :
  Client.st_loading (Client.mount jwtDecode (Client.initial stored)) = false
  /\ (Client.isAuthenticated (Client.mount jwtDecode (Client.initial stored)) = true
      <-> exists token d u,
            stored = Some token /\ token <> EmptyString
            /\ jwtDecode token = Return d /\ Client.user d = Some u).
Proof.
  unfold Client.mount, Client.isAuthenticated, Client.initial. simpl.
  destruct stored as [token | ]; simpl.
  - unfold truthy. destruct (String.eqb_spec token EmptyString) as [E | E]; simpl.
    + split; [reflexivity | ]. split; [discriminate | ].
      intros (t & d & u & Ht & Hne & _). injection Ht as <-. contradiction.
    + destruct (jwtDecode token) as [d | e] eqn:Hd; simpl.
      * split; [reflexivity | ].
        destruct (Client.user d) as [u | ] eqn:Hu.
        -- split; [ | reflexivity]. intros _. now exists token, d, u.
        -- split; [discriminate | ].
           intros (t & d' & u & Ht & _ & Hdec & Hu'). injection Ht as <-.
           rewrite Hd in Hdec. injection Hdec as <-. rewrite Hu in Hu'.
           discriminate Hu'.
      * split; [reflexivity | ]. split; [discriminate | ].
        intros (t & d & u & Ht & _ & Hdec & _). injection Ht as <-.
        rewrite Hd in Hdec. discriminate Hdec.
  - split; [reflexivity | ]. split; [discriminate | ].
    intros (t & d & u & Ht & _). discriminate Ht.
Qed.

(** X22: the mount effect leaves no undecodable token behind: whatever the
    session it runs in, a token in storage afterwards is empty or decodes. *)
Theorem mount_purges_undecodable (s : Client.Session) (token : string) :
  Client.storage_token (Client.mount jwtDecode s) = Some token ->
  token = EmptyString \/ exists d, jwtDecode token = Return d.
Proof.
  unfold Client.mount. simpl.
  destruct (Client.storage_token s) as [t | ] eqn:Hs; simpl.
  - unfold truthy. destruct (String.eqb_spec t EmptyString) as [E | E]; simpl.
    + rewrite Hs. intros H. injection H as <-. now left.
    + destruct (jwtDecode t) as [d | e] eqn:Hd; simpl.
      * rewrite Hs. intros H. injection H as <-. right. now exists d.
      * discriminate.
  - rewrite Hs. discriminate.
Qed.

(** X23: a login survives a restart: after [login] with a non-empty token
    that decodes, a process started over the storage it left finds the token
    and ends as the login did: authenticated as the same user when the
    payload carries one, anonymous like the login itself when it carries
    none. *)
Theorem login_survives_restart (token : string) (d : Client.Decoded)
  (s : Client.Session) :
  token <> EmptyString ->
  jwtDecode token = Return d ->
  let s' := Client.login jwtDecode token s in
  let restarted := Client.mount jwtDecode (Client.initial (Client.storage_token s')) in
  Client.storage_token restarted = Some token
  /\ (forall u, Client.user d = Some u ->
        Client.st_user s' = Some u
        /\ Client.st_user restarted = Some u
        /\ Client.isAuthenticated restarted = true)
  /\ (Client.user d = None ->
      Client.st_user s' = None
      /\ Client.st_user restarted = None
      /\ Client.isAuthenticated restarted = false).
Proof.
  intros Hne Hd. cbv zeta.
  unfold Client.login, Client.mount, Client.isAuthenticated. rewrite Hd. simpl.
  unfold truthy. apply String.eqb_neq in Hne. rewrite Hne. simpl. rewrite Hd.
  simpl. split; [reflexivity | split].
  - intros u Hu. rewrite Hu. repeat split.
  - intros Hu. rewrite Hu. repeat split.
Qed.

(** X24: a failed login does not survive a restart: [login] with a token
    that does not decode leaves it in storage, and a process started over
    that storage is anonymous and, the token being non-empty, has purged it. *)
Theorem failed_login_then_restart (token : string) (e : Error) (s : Client.Session) :
  jwtDecode token = Throw e ->
  let s' := Client.login jwtDecode token s in
  let restarted := Client.mount jwtDecode (Client.initial (Client.storage_token s')) in
  Client.storage_token s' = Some token
  /\ Client.st_user restarted = None
  /\ Client.isAuthenticated restarted = false
  /\ (token <> EmptyString -> Client.storage_token restarted = None).
Proof.
  intros Hd. cbv zeta.
  unfold Client.login, Client.mount, Client.isAuthenticated. rewrite Hd. simpl.
  unfold truthy. destruct (String.eqb_spec token EmptyString) as [E | E]; simpl.
  - repeat split. intros H. contradiction.
  - rewrite Hd. simpl. repeat split.
Qed.

(** [logout] ends the session whatever it was: no user, nothing in
    storage, nothing logged, and a process started afterwards is anonymous. *)
Lemma logout_ends_session (s : Client.Session) :
  let s' := Client.logout s in
  Client.st_user s' = None
  /\ Client.isAuthenticated s' = false
  /\ Client.storage_token s' = None
  /\ Client.console s' = Client.console s
  /\ Client.isAuthenticated
       (Client.mount jwtDecode (Client.initial (Client.storage_token s'))) = false.
Proof. cbv zeta. unfold Client.logout, Client.mount. simpl. repeat split. Qed.

End ProviderProps.

(** ** The add-employee form *)

Module EmployeeFormProps.
Import EmployeeForm.

Lemma append_nil_r (s : string) : s ++ EmptyString = s.
Proof. induction s as [ | c t IH]; simpl; [ | rewrite IH]; reflexivity. Qed.

Lemma append_assoc_r (a b c : string) : (a ++ b) ++ c = a ++ (b ++ c).
Proof. induction a as [ | x a IH]; simpl; [ | rewrite IH]; reflexivity. Qed.

Lemma all_of_app (p : ascii -> bool) (a b : string) :
  all_of p (a ++ b) = all_of p a && all_of p b.
Proof.
  induction a as [ | x a IH]; simpl; [reflexivity | ].
  now rewrite IH, andb_assoc.
Qed.

(** *** [trim] *)

Lemma trimEnd_empty_iff (s : string) :
  trimEnd s = EmptyString <-> all_of is_space s = true.
Proof.
  induction s as [ | c t IH]; simpl; [tauto | ].
  destruct (trimEnd t) as [ | y r] eqn:E.
  - destruct (is_space c); simpl.
    + tauto.
    + split; discriminate.
  - split; [discriminate | ]. intros H. apply andb_true_iff in H.
    destruct H as [_ H]. apply IH in H. discriminate H.
Qed.

Lemma all_space_trimStart (s : string) :
  all_of is_space (trimStart s) = all_of is_space s.
Proof.
  induction s as [ | c t IH]; simpl; [reflexivity | ].
  destruct (is_space c) eqn:E; simpl; [exact IH | now rewrite E].
Qed.

Lemma trim_empty_iff (s : string) :
  trim s = EmptyString <-> all_of is_space s = true.
Proof. unfold trim. now rewrite trimEnd_empty_iff, all_space_trimStart. Qed.

Lemma trimEnd_idempotent (s : string) : trimEnd (trimEnd s) = trimEnd s.
Proof.
  induction s as [ | c t IH]; simpl; [reflexivity | ].
  destruct (trimEnd t) as [ | y r] eqn:E.
  - destruct (is_space c) eqn:Hc; simpl; [reflexivity | now rewrite Hc].
  - change (trimEnd (String c (String y r))
            = String c (String y r)).
    simpl in IH |- *. now rewrite IH.
Qed.

Lemma trimStart_starts_clean (s : string) : starts_clean (trimStart s).
Proof.
  induction s as [ | c t IH]; simpl; [exact I | ].
  destruct (is_space c) eqn:E; [exact IH | exact E].
Qed.

Lemma trimStart_clean (s : string) : starts_clean s -> trimStart s = s.
Proof. destruct s as [ | c t]; simpl; [reflexivity | ]. now intros ->. Qed.

Lemma trimEnd_starts_clean (s : string) : starts_clean s -> starts_clean (trimEnd s).
Proof.
  destruct s as [ | c t]; simpl; [tauto | ]. intros Hc.
  destruct (trimEnd t); [rewrite Hc | ]; exact Hc.
Qed.

Lemma trim_idempotent (s : string) : trim (trim s) = trim s.
Proof.
  unfold trim.
  rewrite (trimStart_clean (trimEnd (trimStart s))).
  - apply trimEnd_idempotent.
  - apply trimEnd_starts_clean, trimStart_starts_clean.
Qed.

(** *** The regular expression matcher *)

Lemma match_here_nil (s : string) : match_here s [] = true.
Proof. destruct s; reflexivity. Qed.

Lemma match_here_once (p : ascii -> bool) (rest : list Atom) (s : string) :
  match_here s (mkAtom p Once :: rest) = true
  <-> exists x t, s = String x t /\ p x = true /\ match_here t rest = true.
Proof.
  destruct s as [ | x t]; simpl.
  - split; [discriminate | ]. intros (y & u & H & _). discriminate H.
  - rewrite andb_true_iff. split.
    + intros [Hp Hm]. now exists x, t.
    + intros (y & u & H & Hp & Hm). injection H as -> ->. now split.
Qed.

Lemma match_here_plus (p : ascii -> bool) (rest : list Atom) (s : string) :
  match_here s (mkAtom p OneOrMore :: rest) = true
  <-> exists w t, s = w ++ t /\ w <> EmptyString /\ all_of p w = true
                  /\ match_here t rest = true.
Proof.
  split.
  - induction s as [ | x t IH]; simpl; [discriminate | ].
    rewrite andb_true_iff, orb_true_iff. intros [Hp [Hm | Hm]].
    + destruct (IH Hm) as (w & u & -> & _ & Hw & Hu).
      exists (String x w), u. simpl. rewrite Hp, Hw.
      repeat split; [discriminate | exact Hu].
    + exists (String x EmptyString), t. simpl. rewrite Hp.
      repeat split; [discriminate | exact Hm].
  - intros (w & t & -> & Hne & Hw & Hm).
    induction w as [ | x w IH]; [contradiction | ].
    simpl in Hw |- *. apply andb_true_iff in Hw. destruct Hw as [Hp Hw].
    rewrite Hp. simpl. apply orb_true_iff.
    destruct w as [ | y w'].
    + right. exact Hm.
    + left. apply IH; [discriminate | exact Hw].
Qed.

Lemma test_iff (atoms : list Atom) (s : string) :
  test atoms s = true
  <-> exists pre t, s = pre ++ t /\ match_here t atoms = true.
Proof.
  induction s as [ | x u IH]; simpl.
  - rewrite orb_false_r. split.
    + intros H. now exists EmptyString, EmptyString.
    + intros (pre & t & H & Hm). destruct pre; [ | discriminate H].
      simpl in H. now subst t.
  - rewrite orb_true_iff, IH. split.
    + intros [H | (pre & t & -> & Hm)].
      * now exists EmptyString, (String x u).
      * now exists (String x pre), t.
    + intros (pre & t & H & Hm). destruct pre as [ | y pre]; simpl in H.
      * left. now subst t.
      * right. injection H as -> ->. now exists pre, t.
Qed.

(** X25: [/\S+@\S+\.\S+/] is not anchored: it accepts exactly the strings
    that contain, somewhere, a word, an at sign, a word, a dot and a word,
    words being non-empty and free of white space; text around that core,
    white space included, is accepted along. *)
Theorem email_regex_accepts_iff (s : string) :
  test email_regex s = true
  <-> exists pre a b c post,
        s = pre ++ a ++ String "@" (b ++ String "." (c ++ post))
        /\ word a /\ word b /\ word c.
Proof.
  unfold email_regex, word. rewrite test_iff. split.
  - intros (pre & t & -> & Hm).
    apply match_here_plus in Hm. destruct Hm as (a & t1 & -> & Ha & Haw & Hm).
    apply match_here_once in Hm. destruct Hm as (x1 & t2 & -> & Hx1 & Hm).
    apply match_here_plus in Hm. destruct Hm as (b & t3 & -> & Hb & Hbw & Hm).
    apply match_here_once in Hm. destruct Hm as (x2 & t4 & -> & Hx2 & Hm).
    apply match_here_plus in Hm. destruct Hm as (c & post & -> & Hc & Hcw & _).
    apply Ascii.eqb_eq in Hx1. apply Ascii.eqb_eq in Hx2. subst x1 x2.
    exists pre, a, b, c, post. now repeat split.
  - intros (pre & a & b & c & post & -> & [Ha Haw] & [Hb Hbw] & [Hc Hcw]).
    exists pre, (a ++ String "@" (b ++ String "." (c ++ post))). split; [reflexivity | ].
    apply match_here_plus. exists a, (String "@" (b ++ String "." (c ++ post))).
    repeat split; try assumption.
    apply match_here_once. exists "@"%char, (b ++ String "." (c ++ post)).
    repeat split.
    apply match_here_plus. exists b, (String "." (c ++ post)).
    repeat split; try assumption.
    apply match_here_once. exists "."%char, (c ++ post).
    repeat split.
    apply match_here_plus. exists c, post.
    repeat split; try assumption. apply match_here_nil.
Qed.

Section FormProps.
Context {number : Type}.

Lemma set_error_length (k v : string) (e : list (string * string)) :
  List.length (set_error k v e) = S (List.length e).
Proof. unfold set_error. rewrite length_app. simpl. lia. Qed.

Lemma falsy_false_iff (s : string) : falsy s = false <-> s <> EmptyString.
Proof. unfold falsy. apply String.eqb_neq. Qed.

(** An address the regex accepts is not blank. *)
Lemma test_email_not_blank (s : string) :
  test email_regex s = true -> trim s <> EmptyString.
Proof.
  intros H Hblank. apply trim_empty_iff in Hblank.
  apply email_regex_accepts_iff in H.
  destruct H as (pre & a & b & c & post & -> & _ & _ & _).
  rewrite !all_of_app in Hblank. simpl in Hblank.
  rewrite !andb_false_r in Hblank. discriminate Hblank.
Qed.

(** X26: [validateForm] answers [true] exactly when the name, the department
    and the position are not blank, the email is accepted by the regex, the
    age is between 18 and 100 and the class is not empty; the errors it sets
    are then empty, and not empty otherwise. *)
Theorem validateForm_accepts_iff (m : @Modal number) :
  let d := formData m in
  (snd (validateForm m) = true
   <-> trim (name d) <> EmptyString
       /\ test email_regex (email d) = true
       /\ (18 <= age d <= 100)%Z
       /\ class d <> EmptyString
       /\ trim (department d) <> EmptyString
       /\ trim (position d) <> EmptyString)
  /\ (snd (validateForm m) = true <-> errors (fst (validateForm m)) = []).
Proof.
  cbv zeta. unfold validateForm. cbv zeta. cbn [fst snd errors setErrors].
  set (d := formData m).
  pose proof (test_email_not_blank (email d)) as Hnb.
  destruct (falsy (trim (name d))) eqn:H1;
  destruct (falsy (trim (email d))) eqn:H2;
  destruct (test email_regex (email d)) eqn:H3;
  destruct ((age d <? 18) || (age d >? 100))%Z eqn:H4;
  destruct (falsy (class d)) eqn:H5;
  destruct (falsy (trim (department d))) eqn:H6;
  destruct (falsy (trim (position d))) eqn:H7;
  cbn [negb set_error app List.length Nat.eqb];
  try (apply falsy_false_iff in H1); try (apply falsy_false_iff in H2);
  try (apply falsy_false_iff in H5); try (apply falsy_false_iff in H6);
  try (apply falsy_false_iff in H7);
  try (apply String.eqb_eq in H1); try (apply String.eqb_eq in H2);
  try (apply String.eqb_eq in H5); try (apply String.eqb_eq in H6);
  try (apply String.eqb_eq in H7);
  (split; split;
   [ try discriminate | try (intros (A1 & A2 & A3 & A4 & A5 & A6)) | try discriminate
   | try discriminate ]);
  try contradiction; try discriminate; try reflexivity;
  try (exfalso; now apply Hnb);
  try (apply orb_true_iff in H4; destruct H4 as [H4 | H4];
       [apply Z.ltb_lt in H4 | apply Z.gtb_lt in H4]; lia).
  intros _. apply orb_false_iff in H4. destruct H4 as [Ha Hb].
  apply Z.ltb_ge in Ha.
  assert (age d <= 100)%Z by (destruct (Z.gtb_spec (age d) 100); [discriminate | lia]).
  repeat split; assumption || lia.
Qed.

(** *** [addItem] and [removeItem] *)

Lemma set_get_list (f : ListField) (d : @EmployeeFormData number) :
  set_list f (get_list f d) d = d.
Proof. destruct f, d; reflexivity. Qed.

Lemma get_set_list (f g : ListField) (l : list string) (d : @EmployeeFormData number) :
  get_list g (set_list f l d) = if match f, g with
                                   | Subjects, Subjects | Education, Education
                                   | Skills, Skills => true
                                   | _, _ => false
                                   end
                                then l else get_list g d.
Proof. destruct f, g; reflexivity. Qed.

Lemma set_set_list (f : ListField) (l l' : list string) (d : @EmployeeFormData number) :
  set_list f l' (set_list f l d) = set_list f l' d.
Proof. destruct f; reflexivity. Qed.

Lemma filter_out_index_last (l : list string) (x : string) (from : nat) :
  filter_out_index (from + List.length l) from (l ++ [x]) = l.
Proof.
  revert from. induction l as [ | y r IH]; intros from; simpl.
  - rewrite Nat.add_0_r, Nat.eqb_refl. reflexivity.
  - destruct (Nat.eqb_spec from (from + S (List.length r))) as [E | _]; [lia | ].
    f_equal. replace (from + S (List.length r))%nat with (S from + List.length r)%nat by lia.
    apply IH.
Qed.

Lemma filter_out_index_past (l : list string) (index from : nat) :
  (index < from)%nat -> filter_out_index index from l = l.
Proof.
  revert from. induction l as [ | y r IH]; intros from Hlt; simpl; [reflexivity | ].
  destruct (Nat.eqb_spec from index); [lia | ]. f_equal. apply IH. lia.
Qed.

Lemma filter_out_index_spec (l : list string) (index from : nat) :
  (from <= index)%nat ->
  filter_out_index index from l
  = (firstn (index - from) l ++ skipn (S (index - from)) l)%list.
Proof.
  revert from. induction l as [ | y r IH]; intros from Hle; simpl.
  - now rewrite firstn_nil.
  - destruct (Nat.eqb_spec from index) as [E | E].
    + subst from. rewrite Nat.sub_diag. simpl.
      apply filter_out_index_past. lia.
    + rewrite (IH (S from)) by lia.
      replace (index - from)%nat with (S (index - S from))%nat by lia.
      reflexivity.
Qed.

Lemma filter_out_index_In (l : list string) (index from : nat) (x : string) :
  In x (filter_out_index index from l) -> In x l.
Proof.
  revert from. induction l as [ | y r IH]; intros from; simpl; [tauto | ].
  destruct (Nat.eqb from index); simpl.
  - intros H. right. now apply (IH (S from)).
  - intros [H | H]; [now left | right; now apply (IH (S from))].
Qed.

(** X27: the lists stay tidy: if no item of the subjects, education and
    skills lists is blank or has white space at either end, none is after an
    [addItem] (with a setter that leaves the form data alone, as the three
    passed to it do) or a [removeItem]. *)
Theorem items_stay_tidy (field : ListField) (value : string)
  (setter : string -> @Modal number -> @Modal number) (index : nat) (m : @Modal number) :
  (forall v m', formData (setter v m') = formData m') ->
  (forall g, tidy (get_list g (formData m))) ->
  (forall g, tidy (get_list g (formData (addItem field value setter m))))
  /\ (forall g, tidy (get_list g (formData (removeItem field index m)))).
Proof.
  intros Hset Htidy. split; intros g.
  - unfold addItem. destruct (falsy (trim value)) eqn:Hb; [apply Htidy | ].
    rewrite Hset. cbn [formData setFormData]. rewrite get_set_list.
    destruct (match field, g with
              | Subjects, Subjects | Education, Education | Skills, Skills => true
              | _, _ => false
              end) eqn:Hfg; [ | apply Htidy].
    apply Forall_app. split; [apply Htidy | ].
    constructor; [ | constructor].
    split; [now apply falsy_false_iff | apply trim_idempotent].
  - unfold removeItem. cbn [formData setFormData]. rewrite get_set_list.
    destruct (match field, g with
              | Subjects, Subjects | Education, Education | Skills, Skills => true
              | _, _ => false
              end) eqn:Hfg; [ | apply Htidy].
    apply Forall_forall. intros x Hx. apply filter_out_index_In in Hx.
    specialize (Htidy field). unfold tidy in Htidy.
    rewrite Forall_forall in Htidy. now apply Htidy.
Qed.

(** X28: removing the item just added undoes the addition: after an
    [addItem] of a value that is not blank, [removeItem] at the index the
    item got restores the form data. *)
Theorem removeItem_undoes_addItem (field : ListField) (value : string)
  (setter : string -> @Modal number -> @Modal number) (m : @Modal number) :
  (forall v m', formData (setter v m') = formData m') ->
  trim value <> EmptyString ->
  In (trim value) (get_list field (formData (addItem field value setter m)))
  /\ formData (removeItem field (List.length (get_list field (formData m)))
                 (addItem field value setter m))
     = formData m.
Proof.
  intros Hset Hne. unfold addItem.
  apply falsy_false_iff in Hne. rewrite Hne. split.
  - rewrite Hset. cbn [formData setFormData]. rewrite get_set_list.
    destruct field; apply in_or_app; right; now left.
  - unfold removeItem. cbn [formData setFormData]. rewrite Hset.
    cbn [formData setFormData]. rewrite get_set_list.
    assert (Hff : match field, field with
                  | Subjects, Subjects | Education, Education | Skills, Skills => true
                  | _, _ => false
                  end = true) by (now destruct field).
    rewrite Hff.
    pose proof (filter_out_index_last (get_list field (formData m)) (trim value) 0)
      as Hlast.
    simpl in Hlast. rewrite Hlast, set_set_list. apply set_get_list.
Qed.

(** X29: [removeItem] drops the item at the index and nothing else: the list
    becomes the items before the index followed by those after it, so an
    index past the end changes nothing; the other two lists are what they
    were. *)
Theorem removeItem_drops_index (field : ListField) (index : nat) (m : @Modal number) :
  get_list field (formData (removeItem field index m))
  = (firstn index (get_list field (formData m))
     ++ skipn (S index) (get_list field (formData m)))%list
  /\ ((List.length (get_list field (formData m)) <= index)%nat ->
      formData (removeItem field index m) = formData m)
  /\ (forall g, g <> field ->
        get_list g (formData (removeItem field index m)) = get_list g (formData m)).
Proof.
  unfold removeItem. cbn [formData setFormData].
  rewrite (filter_out_index_spec _ index 0) by lia. rewrite Nat.sub_0_r.
  split; [ | split].
  - rewrite get_set_list. now destruct field.
  - intros Hlen. rewrite firstn_all2 by exact Hlen.
    rewrite skipn_all2 by lia. rewrite app_nil_r. apply set_get_list.
  - intros g Hg. rewrite get_set_list. destruct field, g; try reflexivity;
      now contradiction Hg.
Qed.

End FormProps.

End EmployeeFormProps.

(** ** Concrete runs of the further properties *)

Module MoreScenarios.
Import Toy ToyFacts.

#[export] Instance bcrypt_laws : BcryptLaws collaborators.
Proof. constructor. intros p. simpl. apply String.eqb_refl. Qed.

Lemma changePassword_success_witness :
  exists w' : World,
    changePassword "secret1234" "correct horse" alice_ctx registered_world
    = (Return {| success := true; message := "Password changed successfully" |}, w')
    /\ find (has_id 1%N) (users w')
       = Some (mkUserDoc 1%N "Alice" "a@x.com" "$2a$10$correct horse" EMPLOYEE)
    /\ (forall j, j <> 1%N ->
          find (has_id j) (users w') = find (has_id j) (users registered_world))
    /\ List.length (users w') = List.length (users registered_world).
Proof.
  refine (changePassword_success "secret1234" "correct horse" alice_ctx
           (mkAuthUser 1%N "Alice" "a@x.com" EMPLOYEE) alice_doc registered_world _ _ _ _ _ _).
  - reflexivity.
  - reflexivity.
  - reflexivity.
  - reflexivity.
  - simpl. lia.
  - reflexivity.
Defined.

Lemma changePassword_wrong_current_witness :
  exists w' : World,
    changePassword "guess" "short" alice_ctx registered_world
    = (Return {| success := false; message := "Current password is incorrect" |}, w')
    /\ users w' = users registered_world.
Proof.
  refine (changePassword_wrong_current "guess" "short" alice_ctx
           (mkAuthUser 1%N "Alice" "a@x.com" EMPLOYEE) alice_doc registered_world _ _ _ _);
    reflexivity.
Defined.

Lemma login_after_changePassword_witness :
  (exists ap,
      fst (login "a@x.com" "correct horse"
             (snd (changePassword "secret1234" "correct horse" alice_ctx
                     registered_world)))
      = Return ap)
  /\ (bcrypt_compare "secret1234" (bcrypt_hash "correct horse") = false ->
      fst (login "a@x.com" "secret1234"
             (snd (changePassword "secret1234" "correct horse" alice_ctx
                     registered_world)))
      = Throw (UserInputError "Invalid email or password")).
Proof.
  refine (login_after_changePassword (B := bcrypt_laws) "secret1234" "correct horse"
           alice_ctx (mkAuthUser 1%N "Alice" "a@x.com" EMPLOYEE) alice_doc
           registered_world
           (snd (changePassword "secret1234" "correct horse" alice_ctx registered_world))
           _ _ _ _).
  - reflexivity.
  - reflexivity.
  - reflexivity.
  - vm_compute. reflexivity.
Defined.


(** An hour after Carol registered her login succeeds, with another token. *)
Lemma login_an_hour_later :
  exists (ap' : AuthPayload) (w3 : World),
    login "c@x.com" "carolcarol"
          (an_hour_later (snd (register carol two_users_world)))
    = (Return ap', w3)
    /\ token ap' <> carol_token.
Proof.
  eexists. eexists. split; [vm_compute; reflexivity | ].
  vm_compute. discriminate.
Qed.

Lemma login_token_verifies_witness :
  exists doc : UserDoc,
    find (has_email "a@x.com") (users registered_world) = Some doc
    /\ bcrypt_compare "secret1234" (password doc) = true
    /\ users (snd (login "a@x.com" "secret1234" registered_world))
       = users registered_world
    /\ (forall (w2 : World) (doc2 : UserDoc),
          db_up w2 = true ->
          (clock w2 < clock registered_world + seven_days)%Z ->
          find (has_id (_id doc)) (users w2) = Some doc2 ->
          fst (verifyToken
                 (token (mkAuthPayload alice_token)) w2)
          = Return (Some (identity_of doc2))).
Proof.
  refine (login_token_verifies (L := laws) "a@x.com" "secret1234" registered_world
           (snd (login "a@x.com" "secret1234" registered_world))
           (mkAuthPayload alice_token) _).
  vm_compute. reflexivity.
Defined.

Lemma two_users_ok : store_ok (users two_users_world).
Proof.
  split; simpl.
  - repeat constructor; simpl; intuition discriminate.
  - repeat constructor; simpl; intuition discriminate.
Defined.

Lemma register_keeps_store_ok_witness :
  store_ok (users (snd (register
                          {| in_name := "Carol"; in_email := "c@x.com";
                             in_password := "carolcarol"; in_role := Some ADMIN |}
                          two_users_world))).
Proof. apply register_keeps_store_ok. exact two_users_ok. Defined.

Lemma changePassword_keeps_store_ok_witness :
  store_ok (users (snd (changePassword "secret1234" "correct horse" alice_ctx
                          two_users_world))).
Proof.
  apply (changePassword_keeps_store_ok "secret1234" "correct horse" alice_ctx
           two_users_world).
  exact two_users_ok.
Defined.

Lemma updateProfile_email_taken_witness :
  exists w' : World,
    updateProfile {| up_name := None; up_email := Some "b@x.com" |} alice_ctx
                  two_users_world
    = (Throw (UserInputError "Email already exists"), w')
    /\ users w' = users two_users_world.
Proof.
  refine (updateProfile_email_taken {| up_name := None; up_email := Some "b@x.com" |}
           alice_ctx (mkAuthUser 1%N "Alice" "a@x.com" EMPLOYEE) "b@x.com" bob_doc
           two_users_world _ _ _ _ _ _ _).
  - reflexivity.
  - reflexivity.
  - reflexivity.
  - discriminate.
  - right. left. reflexivity.
  - reflexivity.
  - discriminate.
Defined.

Lemma updateProfile_success_witness :
  exists (view : UserView) (w' : World),
    updateProfile alice_moves alice_ctx two_users_world = (Return view, w')
    /\ v_id view = 1%N
    /\ v_name view = "Alice"
    /\ v_email view = "alice@x.com"
    /\ v_role view = EMPLOYEE
    /\ find (has_id 1%N) (users w')
       = Some (mkUserDoc (v_id view) (v_name view) (v_email view)
                         "$2a$10$secret1234" (v_role view))
    /\ (forall j, j <> 1%N ->
          find (has_id j) (users w') = find (has_id j) (users two_users_world)).
Proof.
  refine (updateProfile_success alice_moves alice_ctx
           (mkAuthUser 1%N "Alice" "a@x.com" EMPLOYEE) alice_doc two_users_world _ _ _ _).
  - reflexivity.
  - reflexivity.
  - reflexivity.
  - simpl. intros e He. injection He as <-.
    intros v [Hv | [Hv | []]]; subst v; simpl; intros H; [discriminate H | discriminate H].
Defined.

Lemma updateProfile_blank_keeps_profile_witness :
  exists (view : UserView) (w' : World),
    updateProfile {| up_name := Some EmptyString; up_email := None |} alice_ctx
                  two_users_world
    = (Return view, w')
    /\ v_id view = 1%N /\ v_name view = "Alice"
    /\ v_email view = "a@x.com" /\ v_role view = EMPLOYEE
    /\ users w' = users two_users_world.
Proof.
  refine (updateProfile_blank_keeps_profile
           {| up_name := Some EmptyString; up_email := None |} alice_ctx
           (mkAuthUser 1%N "Alice" "a@x.com" EMPLOYEE) alice_doc two_users_world _ _ _ _ _).
  - reflexivity.
  - reflexivity.
  - reflexivity.
  - right. reflexivity.
  - left. reflexivity.
Defined.

Lemma updateProfile_keeps_store_ok_witness :
  store_ok (users (snd (updateProfile alice_moves alice_ctx two_users_world))).
Proof. apply updateProfile_keeps_store_ok. exact two_users_ok. Defined.

Lemma me_after_context_witness :
  exists (view : UserView) (w2 : World),
    me alice_ctx (snd (context alice_header registered_world)) = (Return view, w2)
    /\ v_id view = 1%N /\ v_name view = "Alice"
    /\ v_email view = "a@x.com" /\ v_role view = EMPLOYEE
    /\ users w2 = users registered_world.
Proof.
  refine (me_after_context alice_header registered_world
           (snd (context alice_header registered_world)) alice_ctx
           (mkAuthUser 1%N "Alice" "a@x.com" EMPLOYEE) _ _).
  - vm_compute. reflexivity.
  - reflexivity.
Defined.

Lemma updateProfile_then_verify_witness :
  fst (verifyToken alice_token
         (snd (updateProfile alice_moves alice_ctx registered_world)))
  = Return (Some (mkAuthUser 1%N "Alice" "alice@x.com" EMPLOYEE)).
Proof.
  refine (updateProfile_then_verify alice_moves alice_ctx
           (mkAuthUser 1%N "Alice" "a@x.com" EMPLOYEE)
           (mkAuthUser 1%N "Alice" "a@x.com" EMPLOYEE)
           alice_token registered_world
           (snd (verifyToken alice_token registered_world))
           (snd (updateProfile alice_moves alice_ctx registered_world))
           (mkUserView 1%N "Alice" "alice@x.com" EMPLOYEE
              (Some "2024-01-01T00:00:00.000Z") (Some "p000101111")) _ _ _ _).
  - reflexivity.
  - vm_compute. reflexivity.
  - reflexivity.
  - vm_compute. reflexivity.
Defined.

Lemma resolvers_on_vanished_account_witness :
  fst (me ghost_ctx two_users_world) = Throw (AuthenticationError "User not found")
  /\ fst (changePassword "whatever" "whatever" ghost_ctx two_users_world)
     = Throw (UserInputError "User not found")
  /\ fst (updateProfile {| up_name := Some "G"; up_email := None |} ghost_ctx
            two_users_world)
     = Throw (UserInputError "User not found")
  /\ users (snd (updateProfile {| up_name := Some "G"; up_email := None |} ghost_ctx
                   two_users_world))
     = users two_users_world.
Proof.
  refine (resolvers_on_vanished_account "whatever" "whatever"
           {| up_name := Some "G"; up_email := None |} ghost_ctx
           (mkAuthUser 9%N "Ghost" "g@x.com" EMPLOYEE) two_users_world _ _ _ _).
  - reflexivity.
  - reflexivity.
  - simpl. intros doc [H | [H | []]]; subst doc; discriminate.
  - simpl. intros e He. discriminate He.
Defined.

Lemma resolvers_propagate_store_failure_witness :
  fst (register alice2 (unplugged registered_world)) = Throw store_down
  /\ fst (login "a@x.com" "secret1234" (unplugged registered_world)) = Throw store_down
  /\ fst (me alice_ctx (unplugged registered_world)) = Throw store_down
  /\ fst (changePassword "secret1234" "correct horse" alice_ctx
            (unplugged registered_world)) = Throw store_down
  /\ fst (updateProfile alice_moves alice_ctx (unplugged registered_world))
     = Throw store_down.
Proof.
  refine (resolvers_propagate_store_failure alice2 "a@x.com" "secret1234"
           "secret1234" "correct horse" alice_moves alice_ctx
           (mkAuthUser 1%N "Alice" "a@x.com" EMPLOYEE) (unplugged registered_world) _ _);
    reflexivity.
Defined.

Lemma context_verifies_second_word_witness :
  exists (u : option AuthUser) (w' : World),
    verifyToken (first_word (alice_token ++ " trailing words")) registered_world
    = (Return u, w')
    /\ context (Some ("Basic" ++ String " " (alice_token ++ " trailing words")))
         registered_world
       = (Return {| user := u |}, w').
Proof.
  refine (context_verifies_second_word "Basic" (alice_token ++ " trailing words")
           registered_world _ _).
  - reflexivity.
  - vm_compute. discriminate.
Defined.

Lemma rejected_token_is_refused_witness :
  serve (Some ("Bearer" ++ String " " "not.a.token")) me registered_world
  = (Throw (AuthenticationError "Not authenticated"),
     log (EvJwtVerify "not.a.token") registered_world)
  /\ serve (Some ("Bearer" ++ String " " "not.a.token"))
       (changePassword "secret1234" "correct horse") registered_world
     = (Throw (AuthenticationError "Not authenticated"),
        log (EvJwtVerify "not.a.token") registered_world)
  /\ serve (Some ("Bearer" ++ String " " "not.a.token"))
       (updateProfile alice_moves) registered_world
     = (Throw (AuthenticationError "Not authenticated"),
        log (EvJwtVerify "not.a.token") registered_world).
Proof.
  refine (rejected_token_is_refused "Bearer" "not.a.token" "secret1234" "correct horse"
           alice_moves (JsonWebTokenError "jwt malformed") registered_world _ _ _ _).
  - reflexivity.
  - reflexivity.
  - discriminate.
  - vm_compute. reflexivity.
Defined.

Lemma mount_purges_undecodable_witness :
  alice_token = EmptyString \/ exists d, jwtDecode alice_token = Return d.
Proof.
  refine (mount_purges_undecodable jwtDecode (Client.initial (Some alice_token))
           alice_token _).
  vm_compute. reflexivity.
Defined.

Lemma login_survives_restart_witness :
  Client.storage_token
    (Client.mount jwtDecode
       (Client.initial
          (Client.storage_token
             (Client.login jwtDecode alice_token (Client.initial None)))))
  = Some alice_token
  /\ (forall u,
        Some (Client.mkUser "p" "a@x.com" "Alice" EMPLOYEE) = Some u ->
        Client.st_user (Client.login jwtDecode alice_token (Client.initial None))
        = Some u
        /\ Client.st_user
             (Client.mount jwtDecode
                (Client.initial
                   (Client.storage_token
                      (Client.login jwtDecode alice_token (Client.initial None)))))
           = Some u
        /\ Client.isAuthenticated
             (Client.mount jwtDecode
                (Client.initial
                   (Client.storage_token
                      (Client.login jwtDecode alice_token (Client.initial None)))))
           = true)
  /\ (Some (Client.mkUser "p" "a@x.com" "Alice" EMPLOYEE) = None ->
      Client.st_user (Client.login jwtDecode alice_token (Client.initial None)) = None
      /\ Client.st_user
           (Client.mount jwtDecode
              (Client.initial
                 (Client.storage_token
                    (Client.login jwtDecode alice_token (Client.initial None)))))
         = None
      /\ Client.isAuthenticated
           (Client.mount jwtDecode
              (Client.initial
                 (Client.storage_token
                    (Client.login jwtDecode alice_token (Client.initial None)))))
         = false).
Proof.
  refine (login_survives_restart jwtDecode alice_token
           (Client.mkDecoded (Some (Client.mkUser "p" "a@x.com" "Alice" EMPLOYEE)))
           (Client.initial None) _ _).
  - vm_compute. discriminate.
  - vm_compute. reflexivity.
Defined.

Lemma failed_login_then_restart_witness :
  Client.storage_token (Client.login jwtDecode "not.a.token" alice_session)
  = Some "not.a.token"
  /\ Client.st_user
       (Client.mount jwtDecode
          (Client.initial
             (Client.storage_token
                (Client.login jwtDecode "not.a.token" alice_session))))
     = None
  /\ Client.isAuthenticated
       (Client.mount jwtDecode
          (Client.initial
             (Client.storage_token
                (Client.login jwtDecode "not.a.token" alice_session))))
     = false
  /\ ("not.a.token" <> EmptyString ->
      Client.storage_token
        (Client.mount jwtDecode
           (Client.initial
              (Client.storage_token
                 (Client.login jwtDecode "not.a.token" alice_session))))
      = None).
Proof.
  refine (failed_login_then_restart jwtDecode "not.a.token"
           (InvalidTokenError "Invalid token specified") alice_session _).
  reflexivity.
Defined.

Lemma fresh_form_tidy (g : EmployeeForm.ListField) :
  EmployeeForm.tidy (EmployeeForm.get_list g (EmployeeForm.formData fresh_form)).
Proof. destruct g; constructor. Defined.

Lemma items_stay_tidy_witness :
  (forall g,
      EmployeeForm.tidy
        (EmployeeForm.get_list g
           (EmployeeForm.formData
              (EmployeeForm.addItem EmployeeForm.Skills "  Rocq  "
                 EmployeeForm.setNewSkill fresh_form))))
  /\ (forall g,
        EmployeeForm.tidy
          (EmployeeForm.get_list g
             (EmployeeForm.formData
                (EmployeeForm.removeItem EmployeeForm.Skills 0 fresh_form)))).
Proof.
  refine (EmployeeFormProps.items_stay_tidy EmployeeForm.Skills "  Rocq  "
            EmployeeForm.setNewSkill 0 fresh_form _ _).
  - intros v m'. reflexivity.
  - exact fresh_form_tidy.
Defined.

Lemma removeItem_undoes_addItem_witness :
  In "Rocq"
     (EmployeeForm.get_list EmployeeForm.Skills
        (EmployeeForm.formData
           (EmployeeForm.addItem EmployeeForm.Skills "  Rocq  "
              EmployeeForm.setNewSkill fresh_form)))
  /\ EmployeeForm.formData
       (EmployeeForm.removeItem EmployeeForm.Skills 0
          (EmployeeForm.addItem EmployeeForm.Skills "  Rocq  "
             EmployeeForm.setNewSkill fresh_form))
     = EmployeeForm.formData fresh_form.
Proof.
  refine (EmployeeFormProps.removeItem_undoes_addItem EmployeeForm.Skills "  Rocq  "
            EmployeeForm.setNewSkill fresh_form _ _).
  - intros v m'. reflexivity.
  - vm_compute. discriminate.
Defined.

End MoreScenarios.
